(** * face-service/server.py: the /verify handler and its temp-file lifecycle

    A shallow embedding of [verify_faces] (and [health]) of
    [src/face-service/server.py].  The handler is written in a small
    state-and-exception monad over the local disk; Flask's request parsing,
    [base64.b64decode], [tempfile.NamedTemporaryFile] and [DeepFace.verify]
    are collaborators outside the repository and appear as the fields of a
    [World] record. *)

From Stdlib Require Import ZArith Ascii String List Bool Lia.
From Stdlib Require Import Floats.PrimFloat.
From stdpp Require Import base option strings pretty gmap fin_maps.

Open Scope string_scope.

(** ** Python values, as [request.get_json()] produces them *)

Set Warnings "-register-all".

Inductive pyval :=
| PNone
| PBool (b : bool)
| PInt (z : Z)
| PFloat (f : float)
| PStr (s : string)
| PList (l : list pyval)
| PDict (d : list (string * pyval)).

(** A raised exception that [except Exception] catches: its class and the
    text [str(e)] gives. *)
Record Exception := mkExc { exc_class : string; exc_str : string }.

(** [type(v).__name__], as Python's error messages print it. *)
Definition type_name (v : pyval) : string :=
  match v with
  | PNone => "NoneType"
  | PBool _ => "bool"
  | PInt _ => "int"
  | PFloat _ => "float"
  | PStr _ => "str"
  | PList _ => "list"
  | PDict _ => "dict"
  end.

Definition AttributeError (v : pyval) (attr : string) : Exception :=
  mkExc "AttributeError"
        ("'" ++ type_name v ++ "' object has no attribute '" ++ attr ++ "'").

Definition TypeError (msg : string) : Exception := mkExc "TypeError" msg.

Definition IndexError (msg : string) : Exception := mkExc "IndexError" msg.

Definition KeyError (key : string) : Exception :=
  mkExc "KeyError" ("'" ++ key ++ "'").

(** Python's truth test, the [not v] of line 17 being its negation. *)
Definition truthy (v : pyval) : bool :=
  match v with
  | PNone => false
  | PBool b => b
  | PInt z => negb (z =? 0)%Z
  | PFloat f => negb (PrimFloat.eqb f PrimFloat.zero)
  | PStr s => negb (String.eqb s "")
  | PList l => match l with [] => false | _ => true end
  | PDict d => match d with [] => false | _ => true end
  end.

(** ** The string operations the handler uses

    A Python [str] is held as its UTF-8 bytes; the three operations below
    look for ASCII patterns only, which UTF-8 never splits. *)

Definition comma : ascii := ","%char.

(** [c in s] for a one-character [c]. *)
Fixpoint str_contains (c : ascii) (s : string) : bool :=
  match s with
  | EmptyString => false
  | String a s' => if Ascii.eqb a c then true else str_contains c s'
  end.

(** [s.split(sep)] for a one-character separator. *)
Fixpoint split (sep : ascii) (s : string) : list string :=
  match s with
  | EmptyString => [EmptyString]
  | String a s' =>
      if Ascii.eqb a sep then EmptyString :: split sep s'
      else match split sep s' with
           | seg :: rest => String a seg :: rest
           | [] => [String a EmptyString]
           end
  end.

(** [s.startswith(p)]. *)
Definition startswith (s p : string) : bool := String.prefix p s.

(** [d.get(key)] on a dict: [None] when the key is absent. *)
Fixpoint dict_get (d : list (string * pyval)) (key : string) : pyval :=
  match d with
  | [] => PNone
  | (k, v) :: d' => if String.eqb k key then v else dict_get d' key
  end.

(** [d[key]] on a dict. *)
Fixpoint dict_item (d : list (string * pyval)) (key : string)
  : Exception + pyval :=
  match d with
  | [] => inl (KeyError key)
  | (k, v) :: d' => if String.eqb k key then inr v else dict_item d' key
  end.

(** ** Bytes and the base64 decoder

    [bytes] objects are lists of 8-bit values.  [py_b64decode] follows
    CPython's [base64.b64decode(s)] with its default [validate=False]:
    [_bytes_from_decode_data] rejects what is not an ASCII string, then
    [binascii.a2b_base64] skips every character outside the alphabet,
    stops at a complete pad sequence and raises on a dangling quad.  The
    handler itself is stated over any decoder (field [b64decode] of
    [World]); this one instantiates it in the concrete runs below. *)

Definition bytes := list Z.

Definition BinasciiError (msg : string) : Exception :=
  mkExc "binascii.Error" msg.

Definition table_a2b_base64 (c : ascii) : option Z :=
  let n := Z.of_N (N_of_ascii c) in
  if (65 <=? n)%Z && (n <=? 90)%Z then Some (n - 65)%Z
  else if (97 <=? n)%Z && (n <=? 122)%Z then Some (n - 71)%Z
  else if (48 <=? n)%Z && (n <=? 57)%Z then Some (n + 4)%Z
  else if (n =? 43)%Z then Some 62%Z
  else if (n =? 47)%Z then Some 63%Z
  else None.

Definition BASE64_PAD : ascii := "="%char.

(** The loop of [a2b_base64]; [out] holds the bytes produced so far, last
    one first. *)
Fixpoint a2b_loop (s : string) (quad_pos leftchar pads : Z) (out : list Z)
  : Exception + bytes :=
  match s with
  | EmptyString =>
      if (quad_pos =? 0)%Z then inr (rev out)
      else if (quad_pos =? 1)%Z then
        inl (BinasciiError
               ("Invalid base64-encoded string: number of data characters ("
                ++ pretty (Z.of_nat (length out) / 3 * 4 + 1)%Z
                ++ ") cannot be 1 more than a multiple of 4"))
      else inl (BinasciiError "Incorrect padding")
  | String this_ch s' =>
      if Ascii.eqb this_ch BASE64_PAD then
        if (2 <=? quad_pos)%Z then
          if (4 <=? quad_pos + (pads + 1))%Z then inr (rev out)
          else a2b_loop s' quad_pos leftchar (pads + 1)%Z out
        else a2b_loop s' quad_pos leftchar pads out
      else
        match table_a2b_base64 this_ch with
        | None => a2b_loop s' quad_pos leftchar pads out
        | Some v =>
            if (quad_pos =? 0)%Z then a2b_loop s' 1 v 0 out
            else if (quad_pos =? 1)%Z then
              a2b_loop s' 2 (Z.land v 15) 0
                (Z.land (Z.lor (Z.shiftl leftchar 2) (Z.shiftr v 4)) 255 :: out)
            else if (quad_pos =? 2)%Z then
              a2b_loop s' 3 (Z.land v 3) 0
                (Z.land (Z.lor (Z.shiftl leftchar 4) (Z.shiftr v 2)) 255 :: out)
            else
              a2b_loop s' 0 0 0
                (Z.land (Z.lor (Z.shiftl leftchar 6) v) 255 :: out)
        end
  end.

Definition a2b_base64 (s : string) : Exception + bytes := a2b_loop s 0 0 0 [].

Fixpoint isascii (s : string) : bool :=
  match s with
  | EmptyString => true
  | String a s' => (N_of_ascii a <? 128)%N && isascii s'
  end.

Definition py_b64decode (v : pyval) : Exception + bytes :=
  match v with
  | PStr s =>
      if isascii s then a2b_base64 s
      else inl (mkExc "ValueError"
                      "string argument should contain only ASCII characters")
  | _ =>
      inl (TypeError
             ("argument should be a bytes-like object or ASCII string, not '"
              ++ type_name v ++ "'"))
  end.

(** ** The disk, the observable events and the collaborators *)

(** What the handler asks of its collaborators, in the order it asks. *)
Inductive Event :=
| EvDecode (arg : pyval)
| EvCreate (path : string)
| EvWrite (path : string) (data : bytes)
| EvVerify (img1_path img2_path model_name : string) (enforce_detection : bool)
| EvUnlink (path : string).

(** The local disk (path to content) and the events so far, oldest first. *)
Record State := mkState { disk : gmap string bytes; trace : list Event }.

Definition log (ev : Event) (st : State) : State :=
  mkState (disk st) (trace st ++ [ev]).

Definition set_disk (d : gmap string bytes) (st : State) : State :=
  mkState d (trace st).

(** The collaborators of the handler.
    - [b64decode v]: [base64.b64decode(v)];
    - [tmp_name d suffix]: the path [NamedTemporaryFile(suffix=..,
      delete=False)] creates on disk [d], or the error it raises;
    - [tmp_write d path data]: [None] when writing [data] and closing the
      file succeed, otherwise the error raised and what reached the disk;
    - [DeepFace_verify d img1_path img2_path model_name enforce_detection]:
      the disk the verifier leaves and its result dict or its error. *)
Record World := mkWorld {
  b64decode : pyval -> Exception + bytes;
  tmp_name : gmap string bytes -> string -> Exception + string;
  tmp_write : gmap string bytes -> string -> bytes -> option (Exception * bytes);
  DeepFace_verify :
    gmap string bytes -> string -> string -> string -> bool ->
    gmap string bytes * (Exception + list (string * pyval))
}.

(** [NamedTemporaryFile] opens with [O_EXCL]: the path it returns was not on
    the disk. *)
Definition tmp_fresh (w : World) : Prop :=
  forall (d : gmap string bytes) (suffix name : string),
    tmp_name w d suffix = inr name -> d !! name = None.

(** ** Computations that may raise *)

Definition M (A : Type) : Type := State -> State * (Exception + A).

Definition ret {A} (a : A) : M A := fun st => (st, inr a).

Definition raise {A} (e : Exception) : M A := fun st => (st, inl e).

Definition bind {A B} (m : M A) (k : A -> M B) : M B :=
  fun st =>
    match m st with
    | (st', inl e) => (st', inl e)
    | (st', inr a) => k a st'
    end.

Definition lift {A} (r : Exception + A) : M A := fun st => (st, r).

Notation "'let*' x ':=' m 'in' k" := (bind m (fun x => k))
  (at level 10, x name, m at level 100, k at level 200).

(** [try: m finally: f]: [f] always runs; an error of [f] replaces the
    outcome of [m]. *)
Definition try_finally {A} (m : M A) (f : M unit) : M A :=
  fun st =>
    match m st with
    | (st', r) =>
        match f st' with
        | (st'', inl e) => (st'', inl e)
        | (st'', inr _) => (st'', r)
        end
    end.

(** [try: m except Exception as e: h e]. *)
Definition try_except {A} (m : M A) (h : Exception -> A) : State -> State * A :=
  fun st =>
    match m st with
    | (st', inl e) => (st', h e)
    | (st', inr a) => (st', a)
    end.

(** ** The operations [verify_faces] performs on Python values *)

(** [data.get(key)]. *)
Definition py_get (data : pyval) (key : string) : Exception + pyval :=
  match data with
  | PDict d => inr (dict_get d key)
  | _ => inl (AttributeError data "get")
  end.

(** [c in v] for a one-character string [c]. *)
Definition py_contains (c : ascii) (v : pyval) : Exception + bool :=
  match v with
  | PStr s => inr (str_contains c s)
  | PList l =>
      inr (existsb (fun x => match x with
                             | PStr s => String.eqb s (String c "")
                             | _ => false
                             end) l)
  | PDict d => inr (existsb (fun kv => String.eqb (fst kv) (String c "")) d)
  | _ => inl (TypeError ("argument of type '" ++ type_name v
                         ++ "' is not iterable"))
  end.

(** [v.split(sep)]. *)
Definition py_split (sep : ascii) (v : pyval) : Exception + list string :=
  match v with
  | PStr s => inr (split sep s)
  | _ => inl (AttributeError v "split")
  end.

(** [l[i]]. *)
Definition list_item (l : list string) (i : nat) : Exception + string :=
  match nth_error l i with
  | Some x => inr x
  | None => inl (IndexError "list index out of range")
  end.

(** [x.split(',')[1] if ',' in x else x], the argument of [b64decode] on
    lines 21 and 29. *)
Definition b64_payload (x : pyval) : Exception + pyval :=
  match py_contains comma x with
  | inl e => inl e
  | inr true =>
      match py_split comma x with
      | inl e => inl e
      | inr parts =>
          match list_item parts 1 with
          | inl e => inl e
          | inr p => inr (PStr p)
          end
      end
  | inr false => inr x
  end.

(** [img2_path != image2_path] of line 54. *)
Definition py_ne (p : string) (v : pyval) : bool :=
  match v with
  | PStr s => negb (String.eqb p s)
  | _ => true
  end.

(** ** The effects *)

(** [base64.b64decode(arg)]. *)
Definition do_b64decode (w : World) (arg : pyval) : M bytes :=
  fun st => (log (EvDecode arg) st, b64decode w arg).

(** [with tempfile.NamedTemporaryFile(suffix=suffix, delete=False) as f:
    f.write(data); path = f.name].  The file exists as soon as it is
    created; a failing write leaves it behind with what was written. *)
Definition write_temp (w : World) (suffix : string) (data : bytes) : M string :=
  fun st =>
    match tmp_name w (disk st) suffix with
    | inl e => (st, inl e)
    | inr name =>
        let st1 := log (EvCreate name) (set_disk (<[name := []]> (disk st)) st) in
        match tmp_write w (disk st) name data with
        | Some (e, written) =>
            (log (EvWrite name written)
                 (set_disk (<[name := written]> (disk st1)) st1), inl e)
        | None =>
            (log (EvWrite name data)
                 (set_disk (<[name := data]> (disk st1)) st1), inr name)
        end
    end.

(** [os.path.exists(p)]. *)
Definition path_exists (p : string) : M bool :=
  fun st => (st, inr (bool_decide (is_Some (disk st !! p)))).

(** [os.unlink(p)]. *)
Definition unlink (p : string) : M unit :=
  fun st =>
    match disk st !! p with
    | Some _ => (log (EvUnlink p) (set_disk (delete p (disk st)) st), inr tt)
    | None =>
        (st, inl (mkExc "FileNotFoundError"
                        ("[Errno 2] No such file or directory: '" ++ p ++ "'")))
    end.

(** [DeepFace.verify(img1_path=.., img2_path=.., model_name=..,
    enforce_detection=..)]. *)
Definition verify (w : World) (img1_path img2_path model_name : string)
    (enforce_detection : bool) : M (list (string * pyval)) :=
  fun st =>
    let st1 := log (EvVerify img1_path img2_path model_name enforce_detection) st in
    match DeepFace_verify w (disk st) img1_path img2_path model_name
                          enforce_detection with
    | (d', r) => (set_disk d' st1, r)
    end.

(** ** [verify_faces] and [health] *)

(** A Flask response: status code and the dict handed to [jsonify]. *)
Record Response := mkResponse { status : Z; body : list (string * pyval) }.

(** What Flask hands the handler: [request.get_json()] gives the parsed body
    or raises. *)
Record Request := mkRequest { get_json : Exception + pyval }.

(** [base64.b64decode(x.split(',')[1] if ',' in x else x)], lines 21 and
    29. *)
Definition decode_image (w : World) (x : pyval) : M bytes :=
  let* arg := lift (b64_payload x) in
  do_b64decode w arg.

(** The test of line 28. *)
Definition sniffs_base64 (s : string) : bool :=
  startswith s "data:" || startswith s "/9j".

(** Lines 28-34: [image2] is sniffed and either decoded into a fresh temp
    file or used as the path it is. *)
Definition resolve_image2 (w : World) (image2_path : pyval) : M string :=
  match image2_path with
  | PStr s =>
      if sniffs_base64 s then
        let* img2_data := decode_image w image2_path in
        write_temp w ".jpg" img2_data
      else ret s
  | _ => raise (AttributeError image2_path "startswith")
  end.

(** Lines 20-34: both images become local paths. *)
Definition prepare_images (w : World) (image1_b64 image2_path : pyval)
  : M (string * string) :=
  let* img1_data := decode_image w image1_b64 in
  let* img1_path := write_temp w ".jpg" img1_data in
  let* img2_path := resolve_image2 w image2_path in
  ret (img1_path, img2_path).

(** Lines 52-55, the [finally] block. *)
Definition cleanup (img1_path img2_path : string) (image2_path : pyval)
  : M unit :=
  let* e1 := path_exists img1_path in
  let* u := (if e1 then unlink img1_path else ret tt) in
  if py_ne img2_path image2_path then
    let* e2 := path_exists img2_path in
    if e2 then unlink img2_path else ret tt
  else ret tt.

(** Lines 37-49, the body of the inner [try]. *)
Definition call_verifier (w : World) (img1_path img2_path : string)
  : M Response :=
  let* result := verify w img1_path img2_path "VGG-Face" false in
  let* verified := lift (dict_item result "verified") in
  let* distance := lift (dict_item result "distance") in
  let* threshold := lift (dict_item result "threshold") in
  let* model := lift (dict_item result "model") in
  ret (mkResponse 200 [("verified", verified); ("distance", distance);
                       ("threshold", threshold); ("model", model)]).

(** Lines 13-55, the body of the outer [try]. *)
Definition verify_faces_try (w : World) (request : Request) : M Response :=
  let* data := lift (get_json request) in
  let* image1_b64 := lift (py_get data "image1") in
  let* image2_path := lift (py_get data "image2") in
  if negb (truthy image1_b64) || negb (truthy image2_path) then
    ret (mkResponse 400 [("error", PStr "Two images are required")])
  else
    let* paths := prepare_images w image1_b64 image2_path in
    try_finally (call_verifier w (fst paths) (snd paths))
                (cleanup (fst paths) (snd paths) image2_path).

(** Lines 57-58, the handler of the outer [try]. *)
Definition error_response (e : Exception) : Response :=
  mkResponse 500 [("error", PStr (exc_str e)); ("verified", PBool false)].

Definition verify_faces (w : World) (request : Request)
  : State -> State * Response :=
  try_except (verify_faces_try w request) error_response.

Definition health : Response :=
  mkResponse 200 [("status", PStr "ok");
                  ("service", PStr "DeepFace Verification")].

(** ** A concrete world, for running the handler

    Temp files are named [/tmp/tmp<n>.jpg] for the first [n] not on the
    disk; writes succeed; the verifier reads both files and reports them
    verified when their contents agree. *)

Definition tmp_candidate (suffix : string) (n : nat) : string :=
  "/tmp/tmp" ++ pretty n ++ suffix.

Fixpoint first_free (d : gmap string bytes) (suffix : string) (n fuel : nat)
  : string :=
  match fuel with
  | O => tmp_candidate suffix n
  | S fuel' =>
      match d !! tmp_candidate suffix n with
      | None => tmp_candidate suffix n
      | Some _ => first_free d suffix (S n) fuel'
      end
  end.

Definition py_verify (d : gmap string bytes) (p1 p2 model_name : string)
    (enforce_detection : bool)
  : gmap string bytes * (Exception + list (string * pyval)) :=
  match d !! p1, d !! p2 with
  | Some b1, Some b2 =>
      let same := bool_decide (b1 = b2) in
      (d, inr [("verified", PBool same);
               ("distance", PFloat (if same then 0%float else 1%float));
               ("threshold", PFloat 0.5%float);
               ("model", PStr model_name);
               ("detector_backend", PStr "opencv")])
  | None, _ =>
      (d, inl (mkExc "ValueError" ("Confirm that " ++ p1 ++ " exists")))
  | _, None =>
      (d, inl (mkExc "ValueError" ("Confirm that " ++ p2 ++ " exists")))
  end.

Definition py_world : World :=
  mkWorld py_b64decode
          (fun d suffix => inr (first_free d suffix 0 (S (size d))))
          (fun _ _ _ => None)
          py_verify.

Definition st0 : State := mkState ∅ [].

Definition json_request (fields : list (string * pyval)) : Request :=
  mkRequest (inr (PDict fields)).

(** ** Vocabulary of the statements *)

(** Everything after the first comma of [s]. *)
Fixpoint after_first_comma (s : string) : string :=
  match s with
  | EmptyString => EmptyString
  | String a s' => if Ascii.eqb a comma then s' else after_first_comma s'
  end.

(** What precedes the first comma of [s]; all of [s] when it has none. *)
Fixpoint before_first_comma (s : string) : string :=
  match s with
  | EmptyString => EmptyString
  | String a s' =>
      if Ascii.eqb a comma then EmptyString
      else String a (before_first_comma s')
  end.

(** The text handed to the decoder for the string [s]: what lies between
    its first comma and the next one, or [s] itself without a comma. *)
Definition str_payload (s : string) : string :=
  if str_contains comma s then before_first_comma (after_first_comma s)
  else s.

(** A field that is absent ([data.get] gives [None]) or the empty string. *)
Definition missing_or_empty (v : pyval) : Prop := v = PNone \/ v = PStr "".

Definition is_unlink (ev : Event) : bool :=
  match ev with EvUnlink _ => true | _ => false end.

(** The data-URL header of a JPEG. *)
Definition data_url_prefix : string := "data:image/jpeg;base64,".

(** What the [finally] block does to a disk [d], and the events it adds. *)
Definition cleanup_disk (d : gmap string bytes) (img1_path img2_path : string)
    (image2_path : pyval) : gmap string bytes :=
  if py_ne img2_path image2_path then delete img2_path (delete img1_path d)
  else delete img1_path d.

Definition cleanup_events (d : gmap string bytes) (img1_path img2_path : string)
    (image2_path : pyval) : list Event :=
  (if bool_decide (is_Some (d !! img1_path)) then [EvUnlink img1_path] else [])
  ++ (if py_ne img2_path image2_path
         && bool_decide (is_Some (delete img1_path d !! img2_path))
      then [EvUnlink img2_path] else []).

(** The steps after field validation at which a request can fail: decoding
    [image1], writing its temp file, decoding [image2], writing its temp
    file, and the verifier call. *)
Inductive operational_failure (w : World) (image1 image2 : pyval)
    (st : State) (e : Exception) : Prop :=
| image1_decode_fails :
    snd (decode_image w image1 st) = inl e ->
    operational_failure w image1 image2 st e
| image1_write_fails st1 data :
    decode_image w image1 st = (st1, inr data) ->
    snd (write_temp w ".jpg" data st1) = inl e ->
    operational_failure w image1 image2 st e
| image2_decode_fails st1 data st2 img1_path s :
    decode_image w image1 st = (st1, inr data) ->
    write_temp w ".jpg" data st1 = (st2, inr img1_path) ->
    image2 = PStr s -> sniffs_base64 s = true ->
    snd (decode_image w image2 st2) = inl e ->
    operational_failure w image1 image2 st e
| image2_write_fails st1 data st2 img1_path s st3 data2 :
    decode_image w image1 st = (st1, inr data) ->
    write_temp w ".jpg" data st1 = (st2, inr img1_path) ->
    image2 = PStr s -> sniffs_base64 s = true ->
    decode_image w image2 st2 = (st3, inr data2) ->
    snd (write_temp w ".jpg" data2 st3) = inl e ->
    operational_failure w image1 image2 st e
| verifier_fails st2 img1_path img2_path :
    prepare_images w image1 image2 st = (st2, inr (img1_path, img2_path)) ->
    snd (DeepFace_verify w (disk st2) img1_path img2_path "VGG-Face" false)
    = inl e ->
    operational_failure w image1 image2 st e.

(** The verifier leaves the file at [s] as it is. *)
Definition verifier_keeps (w : World) (s : string) : Prop :=
  forall (d : gmap string bytes) (p1 p2 m : string) (e : bool) (c : bytes),
    d !! s = Some c -> fst (DeepFace_verify w d p1 p2 m e) !! s = Some c.

(** From [st] to [st'] the file at [s] (content [c]) stayed, and no
    [os.unlink(s)] was issued. *)
Definition spares (s : string) (c : bytes) (st st' : State) : Prop :=
  (disk st !! s = Some c -> disk st' !! s = Some c)
  /\ exists evs, trace st' = (trace st ++ evs)%list /\ ~ In (EvUnlink s) evs.

(** A disk holding one government photo, for the runs below. *)
Definition st_gov : State :=
  mkState {[ "/home/gov/photo.jpg" := [255; 216; 255; 224]%Z ]} [].

(** An exception whose [str(e)] is not empty. *)
Definition loud (e : Exception) : Prop := exc_str e <> "".

(** Every exception a collaborator raises carries a message. *)
Definition loud_world (w : World) : Prop :=
  (forall v e, b64decode w v = inl e -> loud e)
  /\ (forall d suffix e, tmp_name w d suffix = inl e -> loud e)
  /\ (forall d p data e written,
        tmp_write w d p data = Some (e, written) -> loud e)
  /\ (forall d p1 p2 m en e,
        snd (DeepFace_verify w d p1 p2 m en) = inl e -> loud e).

Definition loud_request (request : Request) : Prop :=
  forall e, get_json request = inl e -> loud e.

(** The concrete world with a verifier that runs out of memory: Python's
    [MemoryError()] has an empty [str]. *)
Definition quiet_world : World :=
  mkWorld py_b64decode
          (fun d suffix => inr (first_free d suffix 0 (S (size d))))
          (fun _ _ _ => None)
          (fun d _ _ _ _ => (d, inl (mkExc "MemoryError" ""))).

(** The events of lines 20-34: decoding, creating and writing temp files. *)
Definition is_prep_event (ev : Event) : bool :=
  match ev with
  | EvDecode _ | EvCreate _ | EvWrite _ _ => true
  | _ => false
  end.

Definition is_verify (ev : Event) : bool :=
  match ev with EvVerify _ _ _ _ => true | _ => false end.

(** From [st] to [st'] the events [evs] were added, all of them decodes,
    creations and writes, and (temp names being fresh) every file of [st] is
    still there with its content. *)
Definition prep_step (w : World) (st : State) (evs : list Event) (st' : State)
  : Prop :=
  trace st' = (trace st ++ evs)%list
  /\ forallb is_prep_event evs = true
  /\ (tmp_fresh w ->
      forall q c, disk st !! q = Some c -> disk st' !! q = Some c).

(** The four keys the handler reads from the verifier's result. *)
Definition result_keys : list string :=
  ["verified"; "distance"; "threshold"; "model"].

(** [key in d]. *)
Definition has_key (d : list (string * pyval)) (key : string) : bool :=
  match dict_item d key with inr _ => true | inl _ => false end.

(** The concrete world with a verifier of an older release, whose result
    names the cutoff [max_threshold_to_verify] instead of [threshold]. *)
Definition old_verifier_world : World :=
  mkWorld py_b64decode
          (fun d suffix => inr (first_free d suffix 0 (S (size d))))
          (fun _ _ _ => None)
          (fun d _ _ model_name _ =>
             (d, inr [("verified", PBool true); ("distance", PFloat 0);
                      ("max_threshold_to_verify", PFloat 0.5);
                      ("model", PStr model_name);
                      ("similarity_metric", PStr "cosine")])).

(** Booleans and numbers: the values on which [',' in x] raises. *)
Definition is_scalar (v : pyval) : bool :=
  match v with
  | PBool _ | PInt _ | PFloat _ => true
  | _ => false
  end.

(** * String lemmas *)

Lemma split_unfold (s : string) :
  split comma s =
  before_first_comma s ::
    (if str_contains comma s then split comma (after_first_comma s) else []).
Proof.
  induction s as [|a s IH]; simpl; [reflexivity|].
  destruct (Ascii.eqb a comma); [reflexivity|].
  rewrite IH. reflexivity.
Qed.

Lemma split_second (s : string) :
  str_contains comma s = true ->
  nth_error (split comma s) 1 = Some (before_first_comma (after_first_comma s)).
Proof.
  intros H. rewrite split_unfold, H. simpl.
  rewrite (split_unfold (after_first_comma s)). reflexivity.
Qed.

Lemma b64_payload_str (s : string) :
  b64_payload (PStr s) = inr (PStr (str_payload s)).
Proof.
  unfold b64_payload, str_payload. cbn [py_contains py_split].
  destruct (str_contains comma s) eqn:H; [|reflexivity].
  unfold list_item. rewrite (split_second s H). reflexivity.
Qed.

Lemma before_first_comma_free (s : string) :
  str_contains comma s = false -> before_first_comma s = s.
Proof.
  induction s as [|a s IH]; simpl; [reflexivity|].
  destruct (Ascii.eqb a comma); [discriminate|].
  intros H. rewrite (IH H). reflexivity.
Qed.

(** * The payload handed to the decoder *)

Lemma decode_image_str (w : World) (s : string) (st : State) :
  decode_image w (PStr s) st =
  (log (EvDecode (PStr (str_payload s))) st, b64decode w (PStr (str_payload s))).
Proof.
  unfold decode_image, bind, lift. rewrite b64_payload_str. reflexivity.
Qed.

(** C4, as the code has it: for a string with a comma the decoder receives
    what lies between the first comma and the next one (all that follows the
    first comma only when there is no second one), and the whole string when
    it has no comma; [decode_image] is the one expression both images go
    through, [image1] at line 21 and [image2], on its base64 route, at line
    29. *)
Theorem C4_payload_is_second_comma_field (w : World) (s : string) :
  b64_payload (PStr s) =
    inr (PStr (if str_contains comma s
               then before_first_comma (after_first_comma s) else s))
  /\ (forall st, decode_image w (PStr s) st =
                 (log (EvDecode (PStr (str_payload s))) st,
                  b64decode w (PStr (str_payload s))))
  /\ (forall image2 st,
        prepare_images w (PStr s) image2 st =
        (let* img1_data := lift (b64decode w (PStr (str_payload s))) in
         let* img1_path := write_temp w ".jpg" img1_data in
         let* img2_path := resolve_image2 w image2 in
         ret (img1_path, img2_path)) (log (EvDecode (PStr (str_payload s))) st))
  /\ (forall st,
        resolve_image2 w (PStr s) st =
        if sniffs_base64 s
        then (let* img2_data := lift (b64decode w (PStr (str_payload s))) in
              write_temp w ".jpg" img2_data)
               (log (EvDecode (PStr (str_payload s))) st)
        else (st, inr s)).
Proof.
  split; [exact (b64_payload_str s)|].
  split; [intros st; apply decode_image_str|].
  split.
  - intros image2 st. unfold prepare_images.
    unfold bind at 1. rewrite decode_image_str.
    unfold bind at 3. unfold lift.
    destruct (b64decode w (PStr (str_payload s))); reflexivity.
  - intros st. unfold resolve_image2.
    destruct (sniffs_base64 s); [|reflexivity].
    unfold bind. rewrite decode_image_str. unfold lift.
    destruct (b64decode w (PStr (str_payload s))); reflexivity.
Qed.

(** C4 as stated fails: with two commas the decoder does not receive
    everything after the first one. *)
Lemma C4_counterexample :
  b64_payload (PStr "x,AAAA,BBBB") = inr (PStr "AAAA")
  /\ after_first_comma "x,AAAA,BBBB" = "AAAA,BBBB"
  /\ b64_payload (PStr "x,AAAA,BBBB")
     <> inr (PStr (after_first_comma "x,AAAA,BBBB")).
Proof.
  split; [reflexivity|]. split; [reflexivity|]. discriminate.
Qed.

(** C8: with a comma-free payload [p], [image1 = data_url_prefix ++ p] and
    [image1 = p] hand the decoder the same text, so they decode to the same
    bytes (or fail with the same error). *)
Theorem C8_data_url_prefix_transparent (w : World) (p : string) (st : State) :
  str_contains comma p = false ->
  decode_image w (PStr (data_url_prefix ++ p)) st = decode_image w (PStr p) st
  /\ snd (decode_image w (PStr p) st) = b64decode w (PStr p).
Proof.
  intros Hp. rewrite !decode_image_str.
  assert (E1 : str_payload (data_url_prefix ++ p) = p).
  { unfold str_payload, data_url_prefix. cbn.
    apply before_first_comma_free, Hp. }
  assert (E2 : str_payload p = p).
  { unfold str_payload. rewrite Hp. reflexivity. }
  rewrite E1, E2. split; reflexivity.
Qed.

Lemma C8_witness :
  str_contains comma "/9j/4AAQ" = false
  /\ decode_image py_world (PStr (data_url_prefix ++ "/9j/4AAQ")) st0
     = decode_image py_world (PStr "/9j/4AAQ") st0.
Proof.
  split; [reflexivity|].
  apply (C8_data_url_prefix_transparent py_world "/9j/4AAQ" st0).
  reflexivity.
Defined.

(** * Field validation and body parsing *)

Lemma verify_faces_invalid (w : World) (fields : list (string * pyval))
    (st : State) :
  truthy (dict_get fields "image1") && truthy (dict_get fields "image2") = false ->
  verify_faces w (json_request fields) st =
  (st, mkResponse 400 [("error", PStr "Two images are required")]).
Proof.
  intros H. unfold verify_faces, try_except, verify_faces_try, json_request.
  unfold bind, lift. cbn [get_json py_get].
  replace (negb (truthy (dict_get fields "image1"))
           || negb (truthy (dict_get fields "image2"))) with true.
  { reflexivity. }
  rewrite <- negb_andb, H. reflexivity.
Qed.

Lemma verify_faces_valid (w : World) (fields : list (string * pyval))
    (st : State) :
  truthy (dict_get fields "image1") = true ->
  truthy (dict_get fields "image2") = true ->
  verify_faces w (json_request fields) st =
  try_except
    (let* paths := prepare_images w (dict_get fields "image1")
                                  (dict_get fields "image2") in
     try_finally (call_verifier w (fst paths) (snd paths))
                 (cleanup (fst paths) (snd paths) (dict_get fields "image2")))
    error_response st.
Proof.
  intros H1 H2. unfold verify_faces, try_except, verify_faces_try, json_request.
  unfold bind at 1 2 3. unfold lift. cbn [get_json py_get].
  rewrite H1, H2. reflexivity.
Qed.

(** C2: when [image1] or [image2] is missing or empty the handler answers 400
    with [{error: "Two images are required"}] and leaves the state as it
    was: nothing is decoded, no file is created or written. *)
Theorem C2_missing_field_400 (w : World) (fields : list (string * pyval))
    (st : State) :
  missing_or_empty (dict_get fields "image1")
  \/ missing_or_empty (dict_get fields "image2") ->
  verify_faces w (json_request fields) st =
  (st, mkResponse 400 [("error", PStr "Two images are required")]).
Proof.
  intros H. apply verify_faces_invalid.
  destruct H as [[H|H]|[H|H]]; rewrite H; cbn;
    rewrite ?andb_false_r; reflexivity.
Qed.

Lemma C2_witness :
  verify_faces py_world (json_request [("image2", PStr "/9j/4AAQ")]) st0 =
  (st0, mkResponse 400 [("error", PStr "Two images are required")]).
Proof.
  apply (C2_missing_field_400 py_world [("image2", PStr "/9j/4AAQ")] st0).
  left. left. reflexivity.
Defined.

(** C9: when [request.get_json()] raises, or gives anything but a dict (so
    that [data.get] raises), the handler answers 500 with the error text and
    [verified: false], not 400, and touches nothing. *)
Theorem C9_unparsable_body_500 (w : World) (request : Request) (st : State) :
  (forall d, get_json request <> inr (PDict d)) ->
  verify_faces w request st =
  (st, mkResponse 500
         [("error", PStr (exc_str match get_json request with
                                  | inl e => e
                                  | inr v => AttributeError v "get"
                                  end));
          ("verified", PBool false)]).
Proof.
  intros H. unfold verify_faces, try_except, verify_faces_try.
  unfold bind at 1. unfold lift at 1.
  destruct (get_json request) as [e|v]; [reflexivity|].
  unfold bind at 1. unfold lift at 1.
  destruct v; try reflexivity.
  exfalso. exact (H d eq_refl).
Qed.

Lemma C9_witness :
  verify_faces py_world (mkRequest (inr (PList [PStr "AAAA"; PStr "AAAA"]))) st0
  = (st0, mkResponse 500
            [("error", PStr "'list' object has no attribute 'get'");
             ("verified", PBool false)]).
Proof.
  apply (C9_unparsable_body_500 py_world
           (mkRequest (inr (PList [PStr "AAAA"; PStr "AAAA"]))) st0).
  intros d. discriminate.
Defined.

(** * The [finally] block and the verifier call *)

Lemma cleanup_spec (img1_path img2_path : string) (image2_path : pyval)
    (st : State) :
  cleanup img1_path img2_path image2_path st =
  (mkState (cleanup_disk (disk st) img1_path img2_path image2_path)
           (trace st ++ cleanup_events (disk st) img1_path img2_path image2_path),
   inr tt).
Proof.
  destruct st as [d tr].
  unfold cleanup, cleanup_disk, cleanup_events, bind, path_exists, unlink, ret,
    log, set_disk. cbn [disk trace].
  destruct (d !! img1_path) as [b1|] eqn:E1.
  - rewrite bool_decide_eq_true_2 by eauto.
    cbn beta iota. cbn [disk trace]. rewrite E1.
    destruct (py_ne img2_path image2_path); cbn [andb].
    + cbn [disk trace].
      destruct (delete img1_path d !! img2_path) as [b2|] eqn:E2.
      * rewrite bool_decide_eq_true_2 by eauto.
        cbn beta iota. cbn [disk trace]. rewrite E2.
        rewrite <- app_assoc. reflexivity.
      * rewrite bool_decide_eq_false_2 by (intros [? ?]; discriminate).
        rewrite (delete_id _ _ E2), app_nil_r. reflexivity.
    + rewrite app_nil_r. reflexivity.
  - rewrite bool_decide_eq_false_2 by (intros [? ?]; discriminate).
    rewrite (delete_id _ _ E1). cbn [app].
    destruct (py_ne img2_path image2_path); cbn [andb].
    + cbn [disk trace].
      destruct (d !! img2_path) as [b2|] eqn:E2.
      * rewrite bool_decide_eq_true_2 by eauto.
        cbn beta iota. cbn [disk trace]. rewrite E2. reflexivity.
      * rewrite bool_decide_eq_false_2 by (intros [? ?]; discriminate).
        rewrite (delete_id _ _ E2), app_nil_r. reflexivity.
    + rewrite app_nil_r. reflexivity.
Qed.

Lemma cleanup_events_unlinks (d : gmap string bytes)
    (img1_path img2_path : string) (image2_path : pyval) :
  forallb is_unlink (cleanup_events d img1_path img2_path image2_path) = true.
Proof.
  unfold cleanup_events.
  destruct (bool_decide _), (_ && _); reflexivity.
Qed.

Lemma call_verifier_raises (w : World) (img1_path img2_path : string)
    (st : State) (d' : gmap string bytes) (e : Exception) :
  DeepFace_verify w (disk st) img1_path img2_path "VGG-Face" false = (d', inl e) ->
  call_verifier w img1_path img2_path st =
  (mkState d' (trace st ++ [EvVerify img1_path img2_path "VGG-Face" false]),
   inl e).
Proof.
  intros H. unfold call_verifier, bind, verify. rewrite H. reflexivity.
Qed.

Lemma call_verifier_returns (w : World) (img1_path img2_path : string)
    (st : State) (d' : gmap string bytes) (result : list (string * pyval)) :
  DeepFace_verify w (disk st) img1_path img2_path "VGG-Face" false
  = (d', inr result) ->
  call_verifier w img1_path img2_path st =
  (mkState d' (trace st ++ [EvVerify img1_path img2_path "VGG-Face" false]),
   match dict_item result "verified" with
   | inl e => inl e
   | inr verified =>
       match dict_item result "distance" with
       | inl e => inl e
       | inr distance =>
           match dict_item result "threshold" with
           | inl e => inl e
           | inr threshold =>
               match dict_item result "model" with
               | inl e => inl e
               | inr model =>
                   inr (mkResponse 200
                          [("verified", verified); ("distance", distance);
                           ("threshold", threshold); ("model", model)])
               end
           end
       end
   end).
Proof.
  intros H. unfold call_verifier, bind, verify, lift, ret. rewrite H.
  cbn [set_disk log disk trace].
  destruct (dict_item result "verified"); [reflexivity|].
  destruct (dict_item result "distance"); [reflexivity|].
  destruct (dict_item result "threshold"); [reflexivity|].
  destruct (dict_item result "model"); reflexivity.
Qed.

(** * A request that passed field validation *)

Lemma valid_prepare_raises (w : World) (fields : list (string * pyval))
    (st st2 : State) (e : Exception) :
  truthy (dict_get fields "image1") = true ->
  truthy (dict_get fields "image2") = true ->
  prepare_images w (dict_get fields "image1") (dict_get fields "image2") st
  = (st2, inl e) ->
  verify_faces w (json_request fields) st = (st2, error_response e).
Proof.
  intros H1 H2 H. rewrite (verify_faces_valid w fields st H1 H2).
  unfold try_except, bind. rewrite H. reflexivity.
Qed.

Lemma valid_prepared (w : World) (fields : list (string * pyval))
    (st st2 st3 : State) (img1_path img2_path : string)
    (r : Exception + Response) :
  truthy (dict_get fields "image1") = true ->
  truthy (dict_get fields "image2") = true ->
  prepare_images w (dict_get fields "image1") (dict_get fields "image2") st
  = (st2, inr (img1_path, img2_path)) ->
  call_verifier w img1_path img2_path st2 = (st3, r) ->
  verify_faces w (json_request fields) st =
  (mkState (cleanup_disk (disk st3) img1_path img2_path (dict_get fields "image2"))
           (trace st3 ++ cleanup_events (disk st3) img1_path img2_path
                                        (dict_get fields "image2")),
   match r with inl e => error_response e | inr resp => resp end).
Proof.
  intros H1 H2 Hp Hc. rewrite (verify_faces_valid w fields st H1 H2).
  unfold try_except, bind. rewrite Hp. cbn [fst snd].
  unfold try_finally. rewrite Hc, cleanup_spec.
  destruct r; reflexivity.
Qed.

Lemma prepare_images_raises (w : World) (image1 image2 : pyval) (st : State)
    (e : Exception) :
  (snd (decode_image w image1 st) = inl e
   \/ (exists st1 data,
         decode_image w image1 st = (st1, inr data)
         /\ (snd (write_temp w ".jpg" data st1) = inl e
             \/ exists st2 img1_path,
                  write_temp w ".jpg" data st1 = (st2, inr img1_path)
                  /\ snd (resolve_image2 w image2 st2) = inl e))) ->
  exists st', prepare_images w image1 image2 st = (st', inl e).
Proof.
  unfold prepare_images, bind.
  intros [H|(st1 & data & Hd & [H|(st2 & p1 & Hw & H)])].
  - destruct (decode_image w image1 st) as [st1 r]. cbn in H. subst r. eauto.
  - rewrite Hd. destruct (write_temp w ".jpg" data st1) as [st2 r].
    cbn in H. subst r. eauto.
  - rewrite Hd, Hw. destruct (resolve_image2 w image2 st2) as [st3 r].
    cbn in H. subst r. eauto.
Qed.

(** C5: a request that passed field validation and fails at a later step
    (decoding either image, writing either temp file, the verifier call) is
    answered 500 with the error's own text under [error] and
    [verified: false]. *)
Theorem C5_operational_failure_500 (w : World) (fields : list (string * pyval))
    (st : State) (e : Exception) :
  truthy (dict_get fields "image1") = true ->
  truthy (dict_get fields "image2") = true ->
  operational_failure w (dict_get fields "image1") (dict_get fields "image2")
                      st e ->
  snd (verify_faces w (json_request fields) st) =
  mkResponse 500 [("error", PStr (exc_str e)); ("verified", PBool false)].
Proof.
  intros H1 H2 Hf.
  assert (Hraise : (exists st',
             prepare_images w (dict_get fields "image1")
                            (dict_get fields "image2") st = (st', inl e))
          -> snd (verify_faces w (json_request fields) st) = error_response e).
  { intros [st' Hp].
    rewrite (valid_prepare_raises w fields st st' e H1 H2 Hp). reflexivity. }
  destruct Hf as [Hd | st1 data Hd Hw | st1 data st2 p1 s Hd Hw Hs Hsn Hd2
                 | st1 data st2 p1 s st3 data2 Hd Hw Hs Hsn Hd2 Hw2
                 | st2 p1 p2 Hp Hv].
  - apply Hraise, prepare_images_raises. left. exact Hd.
  - apply Hraise, prepare_images_raises. right. exists st1, data. eauto.
  - apply Hraise, prepare_images_raises. right. exists st1, data.
    split; [exact Hd|]. right. exists st2, p1. split; [exact Hw|].
    rewrite Hs in *. unfold resolve_image2. rewrite Hsn. unfold bind.
    destruct (decode_image w (PStr s) st2) as [st3 r].
    cbn in Hd2. subst r. reflexivity.
  - apply Hraise, prepare_images_raises. right. exists st1, data.
    split; [exact Hd|]. right. exists st2, p1. split; [exact Hw|].
    rewrite Hs in *. unfold resolve_image2. rewrite Hsn. unfold bind.
    rewrite Hd2. exact Hw2.
  - destruct (DeepFace_verify w (disk st2) p1 p2 "VGG-Face" false)
      as [d' r] eqn:Hdv. cbn in Hv. subst r.
    rewrite (valid_prepared w fields st st2 _ p1 p2 _ H1 H2 Hp
               (call_verifier_raises w p1 p2 st2 d' e Hdv)).
    reflexivity.
Qed.

Lemma C5_witness :
  snd (verify_faces py_world
         (json_request [("image1", PStr "AAAA");
                        ("image2", PStr "/nonexistent/path.jpg")]) st0)
  = mkResponse 500
      [("error", PStr "Confirm that /nonexistent/path.jpg exists");
       ("verified", PBool false)].
Proof.
  apply (C5_operational_failure_500 py_world
           [("image1", PStr "AAAA"); ("image2", PStr "/nonexistent/path.jpg")]
           st0 (mkExc "ValueError" "Confirm that /nonexistent/path.jpg exists")).
  - reflexivity.
  - reflexivity.
  - apply (verifier_fails py_world _ _ st0 _
             (fst (prepare_images py_world (PStr "AAAA")
                     (PStr "/nonexistent/path.jpg") st0))
             "/tmp/tmp0.jpg" "/nonexistent/path.jpg").
    + vm_compute. reflexivity.
    + vm_compute. reflexivity.
Defined.

(** C7: once both images are resolved the verifier is called exactly with
    the two resolved paths, ["VGG-Face"] and [enforce_detection=False] (only
    unlinks follow that call); and when it returns a result the answer is 200
    with the four fields [verified], [distance], [threshold], [model] of that
    result, as they are, and nothing else of it. *)
Theorem C7_verifier_call_and_passthrough (w : World)
    (fields : list (string * pyval)) (st st2 : State)
    (img1_path img2_path : string) :
  truthy (dict_get fields "image1") = true ->
  truthy (dict_get fields "image2") = true ->
  prepare_images w (dict_get fields "image1") (dict_get fields "image2") st
  = (st2, inr (img1_path, img2_path)) ->
  (exists unlinks,
      forallb is_unlink unlinks = true
      /\ trace (fst (verify_faces w (json_request fields) st)) =
         (trace st2 ++ EvVerify img1_path img2_path "VGG-Face" false :: unlinks)%list)
  /\ (forall d' result verified distance threshold model,
        DeepFace_verify w (disk st2) img1_path img2_path "VGG-Face" false
        = (d', inr result) ->
        dict_item result "verified" = inr verified ->
        dict_item result "distance" = inr distance ->
        dict_item result "threshold" = inr threshold ->
        dict_item result "model" = inr model ->
        snd (verify_faces w (json_request fields) st) =
        mkResponse 200 [("verified", verified); ("distance", distance);
                        ("threshold", threshold); ("model", model)]).
Proof.
  intros H1 H2 Hp.
  destruct (DeepFace_verify w (disk st2) img1_path img2_path "VGG-Face" false)
    as [d' r] eqn:Hv.
  split.
  - exists (cleanup_events d' img1_path img2_path (dict_get fields "image2")).
    split; [apply cleanup_events_unlinks|].
    destruct r as [e|result].
    + rewrite (valid_prepared w fields st st2 _ img1_path img2_path _ H1 H2 Hp
                 (call_verifier_raises w _ _ st2 d' e Hv)).
      cbn [fst disk trace]. rewrite <- app_assoc. reflexivity.
    + rewrite (valid_prepared w fields st st2 _ img1_path img2_path _ H1 H2 Hp
                 (call_verifier_returns w _ _ st2 d' result Hv)).
      cbn [fst disk trace]. rewrite <- app_assoc. reflexivity.
  - intros d'' result verified distance threshold model Hr Hk1 Hk2 Hk3 Hk4.
    injection Hr as <- ->.
    rewrite (valid_prepared w fields st st2 _ img1_path img2_path _ H1 H2 Hp
               (call_verifier_returns w _ _ st2 d' result Hv)).
    cbn [snd]. rewrite Hk1, Hk2, Hk3, Hk4. reflexivity.
Qed.

Lemma C7_witness :
  snd (verify_faces py_world
         (json_request [("image1", PStr "data:image/jpeg;base64,/9j/4AAQ");
                        ("image2", PStr "/9j/4AAQ")]) st0)
  = mkResponse 200 [("verified", PBool true); ("distance", PFloat 0);
                    ("threshold", PFloat 0.5); ("model", PStr "VGG-Face")].
Proof.
  pose (fields := [("image1", PStr "data:image/jpeg;base64,/9j/4AAQ");
                   ("image2", PStr "/9j/4AAQ")]).
  pose (run := prepare_images py_world (dict_get fields "image1")
                              (dict_get fields "image2") st0).
  refine (proj2 (C7_verifier_call_and_passthrough py_world fields st0
                   (fst run) "/tmp/tmp0.jpg" "/tmp/tmp1.jpg" _ _ _)
                (disk (fst run))
                [("verified", PBool true); ("distance", PFloat 0);
                 ("threshold", PFloat 0.5); ("model", PStr "VGG-Face");
                 ("detector_backend", PStr "opencv")]
                _ _ _ _ _ _ _ _ _);
    vm_compute; reflexivity.
Defined.

(** * Temp files that outlive the request *)

(** C1, the run that contradicts it: [image1] decodes and is written to
    [/tmp/tmp0.jpg]; [image2] starts with [/9j] and fails to decode, outside
    the inner [try]; the answer is 500 and [/tmp/tmp0.jpg] is still on the
    disk, with no unlink in the trace. *)
Theorem C1_image1_temp_file_leaks :
  verify_faces py_world
    (json_request [("image1", PStr "AAAA"); ("image2", PStr "/9j")]) st0
  = (mkState {[ "/tmp/tmp0.jpg" := [0; 0; 0]%Z ]}
             [EvDecode (PStr "AAAA"); EvCreate "/tmp/tmp0.jpg";
              EvWrite "/tmp/tmp0.jpg" [0; 0; 0]%Z; EvDecode (PStr "/9j")],
     mkResponse 500 [("error", PStr "Incorrect padding");
                     ("verified", PBool false)]).
Proof. vm_compute. reflexivity. Qed.

(** * The concrete world names fresh files *)

Lemma string_length_app (a s : string) :
  String.length (a ++ s) = String.length a + String.length s.
Proof.
  induction a as [|c a IH]; [reflexivity|].
  change (S (String.length (a ++ s)) = S (String.length a + String.length s)).
  rewrite IH. reflexivity.
Qed.

Lemma string_app_inv_r (a b s : string) : a ++ s = b ++ s -> a = b.
Proof.
  revert b. induction a as [|c a IH]; intros [|c' b] H.
  - reflexivity.
  - apply (f_equal String.length) in H.
    rewrite !string_length_app in H. cbn in H. lia.
  - apply (f_equal String.length) in H.
    rewrite !string_length_app in H. cbn in H. lia.
  - change (String c (a ++ s) = String c' (b ++ s)) in H.
    injection H as -> H. rewrite (IH b H). reflexivity.
Qed.

Lemma tmp_candidate_inj (suffix : string) (n m : nat) :
  tmp_candidate suffix n = tmp_candidate suffix m -> n = m.
Proof.
  unfold tmp_candidate. intros H.
  apply (inj (String.append "/tmp/tmp")) in H.
  apply string_app_inv_r in H.
  exact (inj pretty _ _ H).
Qed.

Lemma first_free_candidate (d : gmap string bytes) (suffix : string)
    (fuel n : nat) :
  exists k, n <= k /\ first_free d suffix n fuel = tmp_candidate suffix k.
Proof.
  revert n. induction fuel as [|fuel IH]; intros n; cbn.
  - exists n. split; [lia|reflexivity].
  - destruct (d !! tmp_candidate suffix n).
    + destruct (IH (S n)) as (k & Hk & E). exists k. split; [lia|exact E].
    + exists n. split; [lia|reflexivity].
Qed.

Lemma first_free_ext (d d' : gmap string bytes) (suffix : string)
    (fuel n : nat) :
  (forall k, n <= k -> d !! tmp_candidate suffix k = d' !! tmp_candidate suffix k) ->
  first_free d suffix n fuel = first_free d' suffix n fuel.
Proof.
  revert n. induction fuel as [|fuel IH]; intros n H; cbn; [reflexivity|].
  rewrite <- (H n) by lia.
  destruct (d !! tmp_candidate suffix n); [|reflexivity].
  apply IH. intros k Hk. apply H. lia.
Qed.

Lemma first_free_fresh (suffix : string) (fuel : nat) :
  forall (d : gmap string bytes) (n : nat),
    size d < fuel -> d !! first_free d suffix n fuel = None.
Proof.
  induction fuel as [|fuel IH]; intros d n Hsize; [lia|]. cbn.
  destruct (d !! tmp_candidate suffix n) as [b|] eqn:E; [|exact E].
  assert (Hne : forall k, S n <= k ->
                 tmp_candidate suffix n <> tmp_candidate suffix k).
  { intros k Hk Heq. apply tmp_candidate_inj in Heq. lia. }
  rewrite (first_free_ext d (delete (tmp_candidate suffix n) d) suffix fuel (S n)).
  2:{ intros k Hk. symmetry. apply lookup_delete_ne, Hne, Hk. }
  destruct (first_free_candidate (delete (tmp_candidate suffix n) d) suffix
              fuel (S n)) as (k & Hk & Ek).
  rewrite <- (lookup_delete_ne d (tmp_candidate suffix n)).
  2:{ rewrite Ek. apply Hne, Hk. }
  apply IH. rewrite map_size_delete_Some by eauto.
  assert (size d <> 0).
  { intros Hz. apply map_size_empty_inv in Hz. subst d.
    rewrite lookup_empty in E. discriminate. }
  lia.
Qed.

Lemma py_world_fresh : tmp_fresh py_world.
Proof.
  intros d suffix name H.
  assert (E : name = first_free d suffix 0 (S (size d))).
  { unfold py_world in H. cbn [tmp_name] in H. congruence. }
  rewrite E. apply first_free_fresh. lia.
Qed.

(** * Writing a temp file, and classifying [image2] *)

Lemma write_temp_cases (w : World) (suffix : string) (data : bytes)
    (st : State) :
  write_temp w suffix data st =
  match tmp_name w (disk st) suffix with
  | inl e => (st, inl e)
  | inr name =>
      match tmp_write w (disk st) name data with
      | Some (e, written) =>
          (mkState (<[name := written]> (disk st))
                   (trace st ++ [EvCreate name; EvWrite name written]), inl e)
      | None =>
          (mkState (<[name := data]> (disk st))
                   (trace st ++ [EvCreate name; EvWrite name data]), inr name)
      end
  end.
Proof.
  unfold write_temp. destruct (tmp_name w (disk st) suffix) as [e|name];
    [reflexivity|].
  destruct (tmp_write w (disk st) name data) as [[e written]|];
    unfold log, set_disk; cbn [disk trace];
    rewrite insert_insert_eq, <- app_assoc; reflexivity.
Qed.

Lemma write_temp_returns (w : World) (suffix : string) (data : bytes)
    (st st' : State) (p : string) :
  write_temp w suffix data st = (st', inr p) ->
  tmp_name w (disk st) suffix = inr p
  /\ st' = mkState (<[p := data]> (disk st))
                   (trace st ++ [EvCreate p; EvWrite p data]).
Proof.
  rewrite write_temp_cases.
  destruct (tmp_name w (disk st) suffix) as [e|name]; [discriminate|].
  destruct (tmp_write w (disk st) name data) as [[e written]|]; [discriminate|].
  intros H. injection H as <- <-. split; reflexivity.
Qed.

Lemma sniffs_base64_ne (p s : string) :
  sniffs_base64 s = true -> sniffs_base64 p = false -> py_ne p (PStr s) = true.
Proof.
  intros Hs Hp. cbn [py_ne]. destruct (String.eqb p s) eqn:E; [|reflexivity].
  apply String.eqb_eq in E. subst p. congruence.
Qed.

Lemma py_ne_same (s : string) : py_ne s (PStr s) = false.
Proof. cbn [py_ne]. rewrite String.eqb_refl. reflexivity. Qed.

(** C3: a string that starts with [data:] or with [/9j] goes through the
    comma-stripping decode and is written to a fresh temp file, whatever else
    it looks like; that file is the one the cleanup owns ([img2_path !=
    image2_path]) as long as temp files are not themselves named [data:...]
    or [/9j...].  Any other string is returned as the path, untouched and
    undecoded, and is not owned. *)
Theorem C3_image2_classification (w : World) (s : string) (st : State) :
  (startswith s "data:" = true \/ startswith s "/9j" = true ->
   resolve_image2 w (PStr s) st =
     (let* img2_data := decode_image w (PStr s) in
      write_temp w ".jpg" img2_data) st
   /\ forall st' p,
        resolve_image2 w (PStr s) st = (st', inr p) ->
        (exists data,
            b64decode w (PStr (str_payload s)) = inr data
            /\ disk st' !! p = Some data
            /\ trace st' = (trace st ++ [EvDecode (PStr (str_payload s));
                                         EvCreate p; EvWrite p data])%list)
        /\ (sniffs_base64 p = false -> py_ne p (PStr s) = true))
  /\ (startswith s "data:" = false -> startswith s "/9j" = false ->
      resolve_image2 w (PStr s) st = (st, inr s)
      /\ py_ne s (PStr s) = false).
Proof.
  split.
  - intros Hs.
    assert (Hsn : sniffs_base64 s = true).
    { unfold sniffs_base64. destruct Hs as [-> | ->];
        [reflexivity | apply orb_true_r]. }
    unfold resolve_image2. rewrite Hsn. split; [reflexivity|].
    intros st' p. unfold bind. rewrite decode_image_str.
    destruct (b64decode w (PStr (str_payload s))) as [e|data]; [discriminate|].
    intros Hw. apply write_temp_returns in Hw. destruct Hw as [_ ->].
    cbn [disk trace log]. split.
    + exists data. split; [reflexivity|]. split.
      * apply lookup_insert_eq.
      * rewrite <- app_assoc. reflexivity.
    + apply sniffs_base64_ne, Hsn.
  - intros H1 H2. unfold resolve_image2, sniffs_base64. rewrite H1, H2.
    split; [reflexivity | apply py_ne_same].
Qed.

Lemma C3_witness :
  resolve_image2 py_world (PStr "/home/gov/photo.jpg") st0
  = (st0, inr "/home/gov/photo.jpg").
Proof.
  apply (proj2 (C3_image2_classification py_world "/home/gov/photo.jpg" st0));
    reflexivity.
Defined.

(** * A path given as [image2] is left alone *)

Lemma spares_refl (s : string) (c : bytes) (st : State) : spares s c st st.
Proof.
  split; [auto|]. exists []. split; [symmetry; apply app_nil_r | intros []].
Qed.

Lemma call_verifier_state (w : World) (img1_path img2_path : string)
    (st : State) :
  fst (call_verifier w img1_path img2_path st) =
  mkState (fst (DeepFace_verify w (disk st) img1_path img2_path "VGG-Face" false))
          (trace st ++ [EvVerify img1_path img2_path "VGG-Face" false]).
Proof.
  destruct (DeepFace_verify w (disk st) img1_path img2_path "VGG-Face" false)
    as [d' [e|result]] eqn:Hv.
  - rewrite (call_verifier_raises w _ _ st d' e Hv). reflexivity.
  - rewrite (call_verifier_returns w _ _ st d' result Hv). reflexivity.
Qed.

Lemma decode_image_state (w : World) (x : pyval) (st : State) :
  disk (fst (decode_image w x st)) = disk st
  /\ exists evs, trace (fst (decode_image w x st)) = (trace st ++ evs)%list
                 /\ forall p, ~ In (EvUnlink p) evs.
Proof.
  unfold decode_image, bind, lift, do_b64decode.
  destruct (b64_payload x) as [e|arg]; cbn [fst disk trace log].
  - split; [reflexivity|]. exists []. split; [symmetry; apply app_nil_r|].
    intros p [].
  - split; [reflexivity|]. exists [EvDecode arg]. split; [reflexivity|].
    intros p [H|[]]. discriminate.
Qed.

Lemma prepare_path_route (w : World) (image1 : pyval) (s : string) (c : bytes)
    (st st2 : State) (r : Exception + string * string) :
  tmp_fresh w -> sniffs_base64 s = false -> disk st !! s = Some c ->
  prepare_images w image1 (PStr s) st = (st2, r) ->
  spares s c st st2
  /\ forall p1 p2, r = inr (p1, p2) -> p1 <> s /\ p2 = s.
Proof.
  intros Hfresh Hsn Hs. unfold prepare_images, bind at 1.
  destruct (decode_image_state w image1 st) as (Hd & evs & Ht & Hev).
  destruct (decode_image w image1 st) as [st1 [e|data]]; cbn [fst] in Hd, Ht.
  - intros H. injection H as <- <-. split; [|discriminate].
    split; [rewrite Hd; auto|]. exists evs. split; [exact Ht|apply Hev].
  - unfold bind at 1. rewrite write_temp_cases.
    destruct (tmp_name w (disk st1) ".jpg") as [e|name] eqn:Hn.
    + intros H. injection H as <- <-. split; [|discriminate].
      split; [rewrite Hd; auto|]. exists evs. split; [exact Ht|apply Hev].
    + assert (Hne : name <> s).
      { intros ->. apply Hfresh in Hn. rewrite Hd in Hn. congruence. }
      destruct (tmp_write w (disk st1) name data) as [[e written]|].
      * intros H. injection H as <- <-. split; [|discriminate].
        split; cbn [disk trace].
        -- intros _. rewrite lookup_insert_ne by exact Hne. rewrite Hd. exact Hs.
        -- exists (evs ++ [EvCreate name; EvWrite name written])%list.
           split; [rewrite Ht, <- app_assoc; reflexivity|].
           rewrite in_app_iff. intros [H|[H|[H|[]]]];
             [exact (Hev s H) | discriminate | discriminate].
      * unfold bind, resolve_image2. rewrite Hsn. unfold ret.
        intros H. injection H as <- <-. split.
        -- split; cbn [disk trace].
           ++ intros _. rewrite lookup_insert_ne by exact Hne. rewrite Hd.
              exact Hs.
           ++ exists (evs ++ [EvCreate name; EvWrite name data])%list.
              split; [rewrite Ht, <- app_assoc; reflexivity|].
              rewrite in_app_iff. intros [H|[H|[H|[]]]];
                [exact (Hev s H) | discriminate | discriminate].
        -- intros p1 p2 H. injection H as <- <-. split; [exact Hne|reflexivity].
Qed.

(** C6: when [image2] is taken as a path [s], a file that was at [s] when
    the request came in is still there, with its content, when the handler
    is done, and the handler never called [os.unlink(s)], whether it
    answered 200, 400 or 500.  The verifier is assumed to leave that file
    alone, and temp files to be created under names not yet on the disk. *)
Theorem C6_path_image2_not_deleted (w : World) (fields : list (string * pyval))
    (s : string) (c : bytes) (st : State) :
  tmp_fresh w -> verifier_keeps w s ->
  dict_get fields "image2" = PStr s ->
  startswith s "data:" = false -> startswith s "/9j" = false ->
  disk st !! s = Some c ->
  disk (fst (verify_faces w (json_request fields) st)) !! s = Some c
  /\ exists evs,
       trace (fst (verify_faces w (json_request fields) st))
       = (trace st ++ evs)%list
       /\ ~ In (EvUnlink s) evs.
Proof.
  intros Hfresh Hkeep Hi2 Hs1 Hs2 Hs.
  assert (Hsn : sniffs_base64 s = false).
  { unfold sniffs_base64. rewrite Hs1, Hs2. reflexivity. }
  enough (Hsp : spares s c st (fst (verify_faces w (json_request fields) st))).
  { destruct Hsp as [Hd He]. split; [exact (Hd Hs) | exact He]. }
  destruct (truthy (dict_get fields "image1") && truthy (dict_get fields "image2"))
    eqn:Hv.
  2:{ rewrite (verify_faces_invalid w fields st Hv). apply spares_refl. }
  apply andb_prop in Hv. destruct Hv as [H1 H2].
  destruct (prepare_images w (dict_get fields "image1")
              (dict_get fields "image2") st) as [st2 r] eqn:Hp.
  pose proof Hp as Hp'. rewrite Hi2 in Hp'.
  destruct (prepare_path_route w _ s c st st2 r Hfresh Hsn Hs Hp')
    as [[Hd2 (evs & Ht2 & Hev2)] Hpaths].
  destruct r as [e|[p1 p2]].
  - rewrite (valid_prepare_raises w fields st st2 e H1 H2 Hp).
    split; [exact Hd2|]. exists evs. split; [exact Ht2|exact Hev2].
  - destruct (Hpaths p1 p2 eq_refl) as [Hne ->].
    destruct (call_verifier w p1 s st2) as [st3 r'] eqn:Hc.
    pose proof (call_verifier_state w p1 s st2) as Hst3.
    rewrite Hc in Hst3. cbn [fst] in Hst3.
    rewrite (valid_prepared w fields st st2 st3 p1 s r' H1 H2 Hp Hc).
    cbn [fst]. rewrite Hi2. unfold cleanup_disk, cleanup_events.
    rewrite py_ne_same. cbn [andb]. rewrite Hst3. cbn [disk trace].
    split; cbn [disk trace].
    + intros _. rewrite lookup_delete_ne by exact Hne.
      apply Hkeep, Hd2, Hs.
    + exists (evs ++ [EvVerify p1 s "VGG-Face" false]
                  ++ (if bool_decide
                           (is_Some
                              (fst (DeepFace_verify w (disk st2) p1 s
                                      "VGG-Face" false) !! p1))
                      then [EvUnlink p1] else []))%list.
      split.
      * rewrite Ht2, app_nil_r, <- !app_assoc. reflexivity.
      * rewrite !in_app_iff. intros [H|[[H|[]]|H]].
        -- exact (Hev2 H).
        -- discriminate.
        -- destruct (bool_decide _); [|destruct H].
           destruct H as [H|[]]. injection H as ->. exact (Hne eq_refl).
Qed.

Lemma py_world_keeps (s : string) : verifier_keeps py_world s.
Proof.
  intros d p1 p2 m e c H. cbn [py_world DeepFace_verify]. unfold py_verify.
  destruct (d !! p1), (d !! p2); exact H.
Qed.

Lemma C6_witness :
  disk (fst (verify_faces py_world
               (json_request [("image1", PStr "AAAA");
                              ("image2", PStr "/home/gov/photo.jpg")]) st_gov))
  !! "/home/gov/photo.jpg" = Some [255; 216; 255; 224]%Z.
Proof.
  apply (proj1 (C6_path_image2_not_deleted py_world
                  [("image1", PStr "AAAA");
                   ("image2", PStr "/home/gov/photo.jpg")]
                  "/home/gov/photo.jpg" [255; 216; 255; 224]%Z st_gov
                  py_world_fresh (py_world_keeps _)
                  eq_refl eq_refl eq_refl eq_refl)).
Defined.

(** * The shapes of the answers *)

Lemma AttributeError_loud (v : pyval) (attr : string) :
  loud (AttributeError v attr).
Proof. unfold loud. cbn. discriminate. Qed.

Lemma dict_item_loud (d : list (string * pyval)) (key : string) (e : Exception) :
  dict_item d key = inl e -> loud e.
Proof.
  induction d as [|[k v] d IH]; cbn.
  - intros H. injection H as <-. unfold loud. cbn. discriminate.
  - destruct (String.eqb k key); [discriminate|exact IH].
Qed.

Lemma b64_payload_loud (x : pyval) (e : Exception) :
  b64_payload x = inl e -> loud e.
Proof.
  unfold b64_payload, list_item.
  destruct x; cbn [py_contains py_split type_name];
    try (intros H; injection H as <-; unfold loud; cbn; discriminate).
  - destruct (str_contains comma s); [|discriminate].
    destruct (nth_error (split comma s) 1); [discriminate|].
    intros H. injection H as <-. unfold loud. cbn. discriminate.
  - destruct (existsb _ l); [|discriminate].
    intros H. injection H as <-. apply AttributeError_loud.
  - destruct (existsb _ d); [|discriminate].
    intros H. injection H as <-. apply AttributeError_loud.
Qed.

Lemma decode_image_loud (w : World) (x : pyval) (st st' : State)
    (e : Exception) :
  loud_world w -> decode_image w x st = (st', inl e) -> loud e.
Proof.
  intros (Hb & _). unfold decode_image, bind, lift, do_b64decode.
  destruct (b64_payload x) as [e'|arg] eqn:Hp.
  - intros H. injection H as _ <-. exact (b64_payload_loud x e' Hp).
  - intros H. injection H as _ H. exact (Hb arg e H).
Qed.

Lemma write_temp_loud (w : World) (suffix : string) (data : bytes)
    (st st' : State) (e : Exception) :
  loud_world w -> write_temp w suffix data st = (st', inl e) -> loud e.
Proof.
  intros (_ & Hn & Hw & _). rewrite write_temp_cases.
  destruct (tmp_name w (disk st) suffix) as [e'|name] eqn:En.
  - intros H. injection H as _ <-. exact (Hn _ _ _ En).
  - destruct (tmp_write w (disk st) name data) as [[e' written]|] eqn:Ew;
      [|discriminate].
    intros H. injection H as _ <-. exact (Hw _ _ _ _ _ Ew).
Qed.

Lemma resolve_image2_loud (w : World) (image2 : pyval) (st st' : State)
    (e : Exception) :
  loud_world w -> resolve_image2 w image2 st = (st', inl e) -> loud e.
Proof.
  intros Hw. unfold resolve_image2.
  destruct image2;
    try (unfold raise; intros H; injection H as _ <-; apply AttributeError_loud).
  destruct (sniffs_base64 s); [|discriminate].
  unfold bind. destruct (decode_image w (PStr s) st) as [st1 [e1|data]] eqn:Hd.
  - intros H. injection H as _ <-. exact (decode_image_loud w _ _ _ _ Hw Hd).
  - apply write_temp_loud, Hw.
Qed.

Lemma prepare_images_loud (w : World) (image1 image2 : pyval) (st st' : State)
    (e : Exception) :
  loud_world w -> prepare_images w image1 image2 st = (st', inl e) -> loud e.
Proof.
  intros Hw. unfold prepare_images, bind.
  destruct (decode_image w image1 st) as [st1 [e1|data]] eqn:Hd.
  - intros H. injection H as _ <-. exact (decode_image_loud w _ _ _ _ Hw Hd).
  - destruct (write_temp w ".jpg" data st1) as [st2 [e2|p1]] eqn:Hwt.
    + intros H. injection H as _ <-. exact (write_temp_loud w _ _ _ _ _ Hw Hwt).
    + destruct (resolve_image2 w image2 st2) as [st3 [e3|p2]] eqn:Hr;
        [|discriminate].
      intros H. injection H as _ <-. exact (resolve_image2_loud w _ _ _ _ Hw Hr).
Qed.

Lemma call_verifier_outcome (w : World) (img1_path img2_path : string)
    (st : State) :
  match snd (call_verifier w img1_path img2_path st) with
  | inl e => loud_world w -> loud e
  | inr resp =>
      exists verified distance threshold model,
        resp = mkResponse 200 [("verified", verified); ("distance", distance);
                               ("threshold", threshold); ("model", model)]
  end.
Proof.
  destruct (DeepFace_verify w (disk st) img1_path img2_path "VGG-Face" false)
    as [d' [e|result]] eqn:Hv.
  - rewrite (call_verifier_raises w _ _ st d' e Hv). cbn [snd].
    intros (_ & _ & _ & Hd). apply (Hd (disk st) img1_path img2_path
                                       "VGG-Face" false). rewrite Hv. reflexivity.
  - rewrite (call_verifier_returns w _ _ st d' result Hv). cbn [snd].
    destruct (dict_item result "verified") as [e|v1] eqn:E1;
      [intros _; exact (dict_item_loud _ _ _ E1)|].
    destruct (dict_item result "distance") as [e|v2] eqn:E2;
      [intros _; exact (dict_item_loud _ _ _ E2)|].
    destruct (dict_item result "threshold") as [e|v3] eqn:E3;
      [intros _; exact (dict_item_loud _ _ _ E3)|].
    destruct (dict_item result "model") as [e|v4] eqn:E4;
      [intros _; exact (dict_item_loud _ _ _ E4)|].
    exists v1, v2, v3, v4. reflexivity.
Qed.

(** C10, as the code has it: every answer is a 200 with exactly the four
    result fields, the 400 with its fixed message, or a 500 whose body is
    [{error: str(e), verified: false}] for the exception [e] that was raised;
    that text is non-empty whenever the collaborators (request parsing,
    decoder, temp files, verifier) raise only exceptions that carry a
    message, the handler's own errors always carrying one. *)
Theorem C10_response_shapes (w : World) (request : Request) (st : State) :
  (exists verified distance threshold model,
      snd (verify_faces w request st) =
      mkResponse 200 [("verified", verified); ("distance", distance);
                      ("threshold", threshold); ("model", model)])
  \/ snd (verify_faces w request st) =
     mkResponse 400 [("error", PStr "Two images are required")]
  \/ (exists e,
        snd (verify_faces w request st) =
        mkResponse 500 [("error", PStr (exc_str e)); ("verified", PBool false)]
        /\ (loud_world w -> loud_request request -> exc_str e <> "")).
Proof.
  destruct request as [[e|v]].
  - right. right. exists e. split; [reflexivity|].
    intros _ Hr. exact (Hr e eq_refl).
  - destruct v as [| | | | |l|fields];
      try (right; right; eexists; split;
           [reflexivity | intros _ _; apply AttributeError_loud]).
    change (mkRequest (inr (PDict fields))) with (json_request fields).
    destruct (truthy (dict_get fields "image1")
              && truthy (dict_get fields "image2")) eqn:Hv.
    2:{ right. left. rewrite (verify_faces_invalid w fields st Hv). reflexivity. }
    apply andb_prop in Hv. destruct Hv as [H1 H2].
    destruct (prepare_images w (dict_get fields "image1")
                (dict_get fields "image2") st) as [st2 [e|[p1 p2]]] eqn:Hp.
    + right. right. exists e.
      rewrite (valid_prepare_raises w fields st st2 e H1 H2 Hp).
      split; [reflexivity|].
      intros Hw _. exact (prepare_images_loud w _ _ _ _ _ Hw Hp).
    + pose proof (call_verifier_outcome w p1 p2 st2) as Ho.
      destruct (call_verifier w p1 p2 st2) as [st3 r] eqn:Hc.
      rewrite (valid_prepared w fields st st2 st3 p1 p2 r H1 H2 Hp Hc).
      cbn [snd] in *. destruct r as [e|resp].
      * right. right. exists e. split; [reflexivity|]. intros Hw _. exact (Ho Hw).
      * left. exact Ho.
Qed.

(** C10 as stated fails: a verifier that raises an exception without a
    message is answered 500 with an empty string under [error]. *)
Lemma C10_counterexample :
  snd (verify_faces quiet_world
         (json_request [("image1", PStr "AAAA"); ("image2", PStr "/9j/4AAQ")])
         st0)
  = mkResponse 500 [("error", PStr ""); ("verified", PBool false)].
Proof. vm_compute. reflexivity. Qed.

(** * What lines 20-34 do to the disk and the trace *)

Lemma prep_step_refl (w : World) (st : State) : prep_step w st [] st.
Proof.
  split; [symmetry; apply app_nil_r|]. split; [reflexivity|]. auto.
Qed.

Lemma prep_step_trans (w : World) (st st1 st2 : State) (evs1 evs2 : list Event) :
  prep_step w st evs1 st1 -> prep_step w st1 evs2 st2 ->
  prep_step w st (evs1 ++ evs2) st2.
Proof.
  intros (T1 & F1 & D1) (T2 & F2 & D2). split; [|split].
  - rewrite T2, T1, app_assoc. reflexivity.
  - rewrite forallb_app, F1, F2. reflexivity.
  - intros Hf q c H. apply (D2 Hf), (D1 Hf), H.
Qed.

Lemma decode_image_effects (w : World) (x : pyval) (st st' : State)
    (r : Exception + bytes) :
  decode_image w x st = (st', r) ->
  exists evs, prep_step w st evs st' /\ disk st' = disk st.
Proof.
  unfold decode_image, bind, lift, do_b64decode.
  destruct (b64_payload x) as [e|arg]; intros H; injection H as <- <-.
  - exists []. split; [apply prep_step_refl|reflexivity].
  - exists [EvDecode arg]. split; [|reflexivity].
    split; [reflexivity|]. split; [reflexivity|]. auto.
Qed.

Lemma write_temp_effects (w : World) (suffix : string) (data : bytes)
    (st st' : State) (r : Exception + string) :
  write_temp w suffix data st = (st', r) ->
  exists evs,
    prep_step w st evs st'
    /\ forall p, r = inr p ->
         In (EvCreate p) evs /\ disk st' !! p = Some data
         /\ tmp_name w (disk st) suffix = inr p.
Proof.
  rewrite write_temp_cases.
  destruct (tmp_name w (disk st) suffix) as [e|name] eqn:Hn.
  - intros H. injection H as <- <-. exists []. split; [apply prep_step_refl|].
    discriminate.
  - assert (Hkeep : forall b, tmp_fresh w -> forall q c,
               disk st !! q = Some c -> <[name := b]> (disk st) !! q = Some c).
    { intros b Hf q c Hq. rewrite lookup_insert_ne; [exact Hq|].
      intros ->. apply Hf in Hn. congruence. }
    destruct (tmp_write w (disk st) name data) as [[e written]|];
      intros H; injection H as <- <-.
    + exists [EvCreate name; EvWrite name written]. split; [|discriminate].
      split; [reflexivity|]. split; [reflexivity|]. apply Hkeep.
    + exists [EvCreate name; EvWrite name data]. split.
      * split; [reflexivity|]. split; [reflexivity|]. apply Hkeep.
      * intros p H. injection H as <-. split; [left; reflexivity|].
        split; [apply lookup_insert_eq|reflexivity].
Qed.

Lemma resolve_image2_effects (w : World) (image2 : pyval) (st st' : State)
    (r : Exception + string) :
  resolve_image2 w image2 st = (st', r) ->
  exists evs,
    prep_step w st evs st'
    /\ forall p, r = inr p ->
         exists s,
           image2 = PStr s
           /\ if sniffs_base64 s
              then exists data,
                     b64decode w (PStr (str_payload s)) = inr data
                     /\ In (EvCreate p) evs
                     /\ disk st' !! p = Some data
                     /\ tmp_name w (disk st) ".jpg" = inr p
              else p = s /\ st' = st.
Proof.
  unfold resolve_image2. destruct image2 as [| | | |s| |];
    try (unfold raise; intros H; injection H as <- <-;
         exists []; split; [apply prep_step_refl|discriminate]).
  destruct (sniffs_base64 s) eqn:Hsn.
  - unfold bind.
    destruct (decode_image w (PStr s) st) as [st1 [e|data]] eqn:Hd.
    + intros H. injection H as <- <-.
      destruct (decode_image_effects w _ _ _ _ Hd) as (evs & Hstep & _).
      exists evs. split; [exact Hstep|discriminate].
    + intros Hw.
      destruct (decode_image_effects w _ _ _ _ Hd) as (evs1 & Hstep1 & Hdisk).
      destruct (write_temp_effects w _ _ _ _ _ Hw) as (evs2 & Hstep2 & Hp).
      exists (evs1 ++ evs2)%list.
      split; [exact (prep_step_trans w _ _ _ _ _ Hstep1 Hstep2)|].
      intros p ->. destruct (Hp p eq_refl) as (Hin & Hfile & Hname).
      exists s. split; [reflexivity|]. rewrite Hsn. exists data.
      rewrite decode_image_str in Hd. injection Hd as _ Hdec.
      split; [exact Hdec|]. split; [apply in_or_app; right; exact Hin|].
      split; [exact Hfile|]. rewrite <- Hdisk. exact Hname.
  - unfold ret. intros H. injection H as <- <-. exists [].
    split; [apply prep_step_refl|]. intros p H. injection H as <-.
    exists s. split; [reflexivity|]. rewrite Hsn. split; reflexivity.
Qed.

Lemma prepare_images_effects (w : World) (image1 image2 : pyval)
    (st st2 : State) (r : Exception + string * string) :
  prepare_images w image1 image2 st = (st2, r) ->
  exists evs,
    prep_step w st evs st2
    /\ forall p1 p2, r = inr (p1, p2) ->
         In (EvCreate p1) evs
         /\ (tmp_fresh w ->
             disk st !! p1 = None
             /\ exists data1, snd (decode_image w image1 st) = inr data1
                              /\ disk st2 !! p1 = Some data1)
         /\ exists s,
              image2 = PStr s
              /\ if sniffs_base64 s
                 then In (EvCreate p2) evs
                      /\ (tmp_fresh w ->
                          p1 <> p2 /\ disk st !! p2 = None
                          /\ exists data2,
                               b64decode w (PStr (str_payload s)) = inr data2
                               /\ disk st2 !! p2 = Some data2)
                 else p2 = s.
Proof.
  unfold prepare_images, bind at 1.
  destruct (decode_image w image1 st) as [st1 [e|data1]] eqn:Hd.
  { intros H. injection H as <- <-.
    destruct (decode_image_effects w _ _ _ _ Hd) as (evs & Hstep & _).
    exists evs. split; [exact Hstep|discriminate]. }
  destruct (decode_image_effects w _ _ _ _ Hd) as (evs1 & Hstep1 & Hdisk1).
  unfold bind at 1.
  destruct (write_temp w ".jpg" data1 st1) as [st1' [e|p1]] eqn:Hw.
  { intros H. injection H as <- <-.
    destruct (write_temp_effects w _ _ _ _ _ Hw) as (evs2 & Hstep2 & _).
    exists (evs1 ++ evs2)%list.
    split; [exact (prep_step_trans w _ _ _ _ _ Hstep1 Hstep2)|discriminate]. }
  destruct (write_temp_effects w _ _ _ _ _ Hw) as (evs2 & Hstep2 & Hp1).
  destruct (Hp1 p1 eq_refl) as (Hin1 & Hfile1 & Hname1).
  unfold bind, ret.
  destruct (resolve_image2 w image2 st1') as [st3 [e|p2]] eqn:Hr.
  { intros H. injection H as <- <-.
    destruct (resolve_image2_effects w _ _ _ _ Hr) as (evs3 & Hstep3 & _).
    exists (evs1 ++ evs2 ++ evs3)%list. split; [|discriminate].
    exact (prep_step_trans w _ _ _ _ _ Hstep1
             (prep_step_trans w _ _ _ _ _ Hstep2 Hstep3)). }
  destruct (resolve_image2_effects w _ _ _ _ Hr) as (evs3 & Hstep3 & Hp2).
  intros H. injection H as <- <-.
  exists (evs1 ++ evs2 ++ evs3)%list. split.
  { exact (prep_step_trans w _ _ _ _ _ Hstep1
             (prep_step_trans w _ _ _ _ _ Hstep2 Hstep3)). }
  intros q1 q2 H. injection H as <- <-.
  split; [apply in_or_app; right; apply in_or_app; left; exact Hin1|].
  split.
  { intros Hf. split.
    - rewrite <- Hdisk1. exact (Hf _ _ _ Hname1).
    - exists data1. split; [reflexivity|].
      destruct Hstep3 as (_ & _ & Hk). exact (Hk Hf _ _ Hfile1). }
  destruct (Hp2 p2 eq_refl) as (s & -> & Hs). exists s.
  split; [reflexivity|]. destruct (sniffs_base64 s).
  - destruct Hs as (data2 & Hdec & Hin2 & Hfile2 & Hname2).
    split; [apply in_or_app; right; apply in_or_app; right; exact Hin2|].
    intros Hf. pose proof (Hf _ _ _ Hname2) as Hfresh2.
    split; [intros ->; congruence|]. split.
    + destruct (disk st !! p2) as [c|] eqn:E; [|reflexivity].
      destruct (prep_step_trans w _ _ _ _ _ Hstep1 Hstep2) as (_ & _ & Hk).
      rewrite (Hk Hf _ _ E) in Hfresh2. discriminate.
    + exists data2. split; [exact Hdec|exact Hfile2].
  - destruct Hs as [-> _]. reflexivity.
Qed.

(** * The state a prepared request ends in *)

Lemma valid_prepared_run (w : World) (fields : list (string * pyval))
    (st st2 : State) (img1_path img2_path : string) :
  truthy (dict_get fields "image1") = true ->
  truthy (dict_get fields "image2") = true ->
  prepare_images w (dict_get fields "image1") (dict_get fields "image2") st
  = (st2, inr (img1_path, img2_path)) ->
  verify_faces w (json_request fields) st =
  (let d' := fst (DeepFace_verify w (disk st2) img1_path img2_path
                    "VGG-Face" false) in
   mkState (cleanup_disk d' img1_path img2_path (dict_get fields "image2"))
           (trace st2 ++ [EvVerify img1_path img2_path "VGG-Face" false]
              ++ cleanup_events d' img1_path img2_path
                   (dict_get fields "image2")),
   match snd (call_verifier w img1_path img2_path st2) with
   | inl e => error_response e
   | inr resp => resp
   end).
Proof.
  intros H1 H2 Hp.
  pose proof (call_verifier_state w img1_path img2_path st2) as Hst.
  destruct (call_verifier w img1_path img2_path st2) as [st3 r] eqn:Hc.
  rewrite (valid_prepared w fields st st2 st3 _ _ r H1 H2 Hp Hc).
  cbn [fst snd] in *. rewrite Hst. cbn [disk trace].
  rewrite <- app_assoc. reflexivity.
Qed.

(** Every run of the handler is one of three: nothing happened (the body
    did not parse to a dict, or a field was falsy); preparation raised; or
    preparation gave two paths and the verifier was called. *)
Lemma verify_faces_run (w : World) (request : Request) (st : State) :
  (fst (verify_faces w request st) = st
   /\ status (snd (verify_faces w request st)) <> 200%Z)
  \/ (exists fields st2 e,
        request = json_request fields
        /\ truthy (dict_get fields "image1") = true
        /\ truthy (dict_get fields "image2") = true
        /\ prepare_images w (dict_get fields "image1")
                          (dict_get fields "image2") st = (st2, inl e)
        /\ verify_faces w request st = (st2, error_response e))
  \/ (exists fields st2 p1 p2,
        request = json_request fields
        /\ truthy (dict_get fields "image1") = true
        /\ truthy (dict_get fields "image2") = true
        /\ prepare_images w (dict_get fields "image1")
                          (dict_get fields "image2") st = (st2, inr (p1, p2))).
Proof.
  destruct request as [[e|v]].
  - left. split; [reflexivity|discriminate].
  - destruct v as [| | | | |l|fields];
      try (left; split; [reflexivity|discriminate]).
    change (mkRequest (inr (PDict fields))) with (json_request fields).
    destruct (truthy (dict_get fields "image1")
              && truthy (dict_get fields "image2")) eqn:Hv.
    2:{ left. rewrite (verify_faces_invalid w fields st Hv).
        split; [reflexivity|discriminate]. }
    apply andb_prop in Hv. destruct Hv as [H1 H2].
    destruct (prepare_images w (dict_get fields "image1")
                (dict_get fields "image2") st) as [st2 [e|[p1 p2]]] eqn:Hp.
    + right. left. exists fields, st2, e.
      repeat split; try assumption.
      apply (valid_prepare_raises w fields st st2 e H1 H2 Hp).
    + right. right. exists fields, st2, p1, p2. repeat split; assumption.
Qed.

Lemma prep_events_no_unlink (evs : list Event) (p : string) :
  forallb is_prep_event evs = true -> ~ In (EvUnlink p) evs.
Proof.
  intros H Hin. rewrite forallb_forall in H. specialize (H _ Hin).
  discriminate.
Qed.

Lemma prep_events_no_verify (evs : list Event) :
  forallb is_prep_event evs = true -> List.filter is_verify evs = [].
Proof.
  induction evs as [|ev evs IH]; [reflexivity|]. cbn [forallb List.filter].
  intros H. apply andb_prop in H. destruct H as [Hev H].
  destruct ev; try discriminate; cbn; apply IH, H.
Qed.

Lemma in_cleanup_events (d : gmap string bytes) (p1 p2 : string)
    (image2 : pyval) (ev : Event) :
  In ev (cleanup_events d p1 p2 image2) ->
  ev = EvUnlink p1 \/ (ev = EvUnlink p2 /\ py_ne p2 image2 = true).
Proof.
  unfold cleanup_events. rewrite in_app_iff. intros [H|H].
  - destruct (bool_decide _); [|destruct H]. destruct H as [<-|[]]. left.
    reflexivity.
  - destruct (py_ne p2 image2); [|destruct H]. cbn [andb] in H.
    destruct (bool_decide _); [|destruct H]. destruct H as [<-|[]].
    right. split; reflexivity.
Qed.

(** * Further properties of [verify_faces] *)

(** X1: once both images are resolved and the verifier has been called, the
    temp file of [image1] is off the disk when the handler returns, and so is
    the file of [image2] whenever the cleanup takes it for a temp file
    ([img2_path != image2_path]) -- whether the verifier returned, raised, or
    removed the files itself; every other path is as the verifier left it. *)
Theorem X1_temp_files_removed_once_verifier_called (w : World)
    (fields : list (string * pyval)) (st st2 : State) (p1 p2 : string) :
  truthy (dict_get fields "image1") = true ->
  truthy (dict_get fields "image2") = true ->
  prepare_images w (dict_get fields "image1") (dict_get fields "image2") st
  = (st2, inr (p1, p2)) ->
  disk (fst (verify_faces w (json_request fields) st)) !! p1 = None
  /\ (py_ne p2 (dict_get fields "image2") = true ->
      disk (fst (verify_faces w (json_request fields) st)) !! p2 = None)
  /\ (forall q, q <> p1 -> q <> p2 ->
        disk (fst (verify_faces w (json_request fields) st)) !! q
        = fst (DeepFace_verify w (disk st2) p1 p2 "VGG-Face" false) !! q).
Proof.
  intros H1 H2 Hp. rewrite (valid_prepared_run w fields st st2 p1 p2 H1 H2 Hp).
  cbn [fst disk]. unfold cleanup_disk.
  destruct (py_ne p2 (dict_get fields "image2")).
  - split; [|split].
    + destruct (decide (p2 = p1)) as [->|Hne].
      * apply lookup_delete_eq.
      * rewrite lookup_delete_ne by exact Hne. apply lookup_delete_eq.
    + intros _. apply lookup_delete_eq.
    + intros q Hq1 Hq2. rewrite !lookup_delete_ne by congruence. reflexivity.
  - split; [apply lookup_delete_eq|]. split; [discriminate|].
    intros q Hq1 _. rewrite lookup_delete_ne by congruence. reflexivity.
Qed.

Lemma X1_witness :
  disk (fst (verify_faces py_world
               (json_request [("image1", PStr "AAAA");
                              ("image2", PStr "data:image/jpeg;base64,/9j/4AAQ")])
               st_gov)) !! "/tmp/tmp0.jpg" = None.
Proof.
  pose (fields := [("image1", PStr "AAAA");
                   ("image2", PStr "data:image/jpeg;base64,/9j/4AAQ")]).
  refine (proj1 (X1_temp_files_removed_once_verifier_called py_world fields
                   st_gov
                   (fst (prepare_images py_world (dict_get fields "image1")
                           (dict_get fields "image2") st_gov))
                   "/tmp/tmp0.jpg" "/tmp/tmp1.jpg" _ _ _));
    vm_compute; reflexivity.
Defined.

(** X2: the handler only ever unlinks a file it created during the same
    request: every [os.unlink(p)] it issues is of a path [p] that a
    [NamedTemporaryFile] of this request returned. *)
Theorem X2_only_created_files_are_unlinked (w : World) (request : Request)
    (st : State) :
  exists evs,
    trace (fst (verify_faces w request st)) = (trace st ++ evs)%list
    /\ forall p, In (EvUnlink p) evs -> In (EvCreate p) evs.
Proof.
  destruct (verify_faces_run w request st)
    as [[Hst _] | [(fields & st2 & e & -> & H1 & H2 & Hp & Hrun)
                  | (fields & st2 & p1 & p2 & -> & H1 & H2 & Hp)]].
  - exists []. rewrite Hst, app_nil_r. split; [reflexivity|intros p []].
  - rewrite Hrun. cbn [fst].
    destruct (prepare_images_effects w _ _ _ _ _ Hp) as (evs & (Ht & Hf & _) & _).
    exists evs. split; [exact Ht|].
    intros p Hin. destruct (prep_events_no_unlink evs p Hf Hin).
  - rewrite (valid_prepared_run w fields st st2 p1 p2 H1 H2 Hp). cbn [fst trace].
    destruct (prepare_images_effects w _ _ _ _ _ Hp)
      as (evs & (Ht & Hf & _) & Hpaths).
    destruct (Hpaths p1 p2 eq_refl) as (Hc1 & _ & s & Hs & Hc2).
    eexists. split; [rewrite Ht, <- app_assoc; reflexivity|].
    intros p. rewrite !in_app_iff. intros [Hin|[[Hin|[]]|Hin]].
    + destruct (prep_events_no_unlink evs p Hf Hin).
    + discriminate.
    + left. apply in_cleanup_events in Hin.
      destruct Hin as [Hin|[Hin Hne]]; injection Hin as ->; [exact Hc1|].
      rewrite Hs in Hne. destruct (sniffs_base64 s); [exact (proj1 Hc2)|].
      subst p2. rewrite py_ne_same in Hne. discriminate.
Qed.

(** X3: with temp files created under fresh names, no file that was on the
    disk when the request came in is removed or rewritten by the handler,
    whatever the request and its outcome: a file the verifier leaves alone
    is found unchanged afterwards and was never unlinked. *)
Theorem X3_existing_files_survive (w : World) (request : Request)
    (st : State) (q : string) (c : bytes) :
  tmp_fresh w -> verifier_keeps w q -> disk st !! q = Some c ->
  disk (fst (verify_faces w request st)) !! q = Some c
  /\ exists evs,
       trace (fst (verify_faces w request st)) = (trace st ++ evs)%list
       /\ ~ In (EvUnlink q) evs.
Proof.
  intros Hfresh Hkeep Hq.
  destruct (verify_faces_run w request st)
    as [[Hst _] | [(fields & st2 & e & -> & H1 & H2 & Hp & Hrun)
                  | (fields & st2 & p1 & p2 & -> & H1 & H2 & Hp)]].
  - rewrite Hst. split; [exact Hq|]. exists [].
    rewrite app_nil_r. split; [reflexivity|intros []].
  - rewrite Hrun. cbn [fst].
    destruct (prepare_images_effects w _ _ _ _ _ Hp) as (evs & (Ht & Hf & Hk) & _).
    split; [exact (Hk Hfresh _ _ Hq)|]. exists evs.
    split; [exact Ht|apply prep_events_no_unlink, Hf].
  - rewrite (valid_prepared_run w fields st st2 p1 p2 H1 H2 Hp).
    cbn [fst disk trace].
    destruct (prepare_images_effects w _ _ _ _ _ Hp)
      as (evs & (Ht & Hf & Hk) & Hpaths).
    destruct (Hpaths p1 p2 eq_refl) as (_ & Hfile1 & s & Hs & Hc2).
    destruct (Hfile1 Hfresh) as [Hnone1 _].
    assert (Hq1 : p1 <> q) by (intros ->; congruence).
    assert (Hq2 : py_ne p2 (dict_get fields "image2") = true -> p2 <> q).
    { rewrite Hs. intros Hne ->. destruct (sniffs_base64 s).
      - destruct Hc2 as [_ Hc2]. destruct (Hc2 Hfresh) as (_ & Hnone2 & _).
        congruence.
      - subst s. rewrite py_ne_same in Hne. discriminate. }
    split.
    + unfold cleanup_disk. destruct (py_ne p2 (dict_get fields "image2")).
      * rewrite !lookup_delete_ne by auto. apply Hkeep, (Hk Hfresh), Hq.
      * rewrite lookup_delete_ne by auto. apply Hkeep, (Hk Hfresh), Hq.
    + eexists. split; [rewrite Ht, <- app_assoc; reflexivity|].
      rewrite !in_app_iff. intros [Hin|[[Hin|[]]|Hin]].
      * exact (prep_events_no_unlink evs q Hf Hin).
      * discriminate.
      * apply in_cleanup_events in Hin.
        destruct Hin as [Hin|[Hin Hne]]; injection Hin as ->.
        -- exact (Hq1 eq_refl).
        -- exact (Hq2 Hne eq_refl).
Qed.

Lemma X3_witness :
  disk (fst (verify_faces py_world
               (json_request [("image1", PStr "AAAA");
                              ("image2", PStr "/9j/4AAQ")]) st_gov))
  !! "/home/gov/photo.jpg" = Some [255; 216; 255; 224]%Z.
Proof.
  apply (proj1 (X3_existing_files_survive py_world
                  (json_request [("image1", PStr "AAAA");
                                 ("image2", PStr "/9j/4AAQ")])
                  st_gov "/home/gov/photo.jpg" [255; 216; 255; 224]%Z
                  py_world_fresh (py_world_keeps _) eq_refl)).
Defined.

(** X4: for a body that parsed to a dict, the answer is 400 exactly when
    [image1] or [image2] is falsy in Python's sense -- absent, [null], [""],
    [0], [false], [[]] or [{}] -- and then nothing at all was done. *)
Theorem X4_status_400_iff_field_falsy (w : World)
    (fields : list (string * pyval)) (st : State) :
  (status (snd (verify_faces w (json_request fields) st)) = 400%Z
   <-> truthy (dict_get fields "image1") && truthy (dict_get fields "image2")
       = false)
  /\ (truthy (dict_get fields "image1") && truthy (dict_get fields "image2")
      = false ->
      verify_faces w (json_request fields) st
      = (st, mkResponse 400 [("error", PStr "Two images are required")])).
Proof.
  split; [|apply verify_faces_invalid]. split.
  - destruct (truthy (dict_get fields "image1")
              && truthy (dict_get fields "image2")) eqn:Hv; [|reflexivity].
    apply andb_prop in Hv. destruct Hv as [H1 H2].
    destruct (prepare_images w (dict_get fields "image1")
                (dict_get fields "image2") st) as [st2 [e|[p1 p2]]] eqn:Hp.
    + rewrite (valid_prepare_raises w fields st st2 e H1 H2 Hp). discriminate.
    + rewrite (valid_prepared_run w fields st st2 p1 p2 H1 H2 Hp). cbn [snd].
      pose proof (call_verifier_outcome w p1 p2 st2) as Ho.
      destruct (snd (call_verifier w p1 p2 st2)) as [e|resp]; [discriminate|].
      destruct Ho as (v1 & v2 & v3 & v4 & ->). discriminate.
  - intros Hv. rewrite (verify_faces_invalid w fields st Hv). reflexivity.
Qed.

(** X5: when [image1] has been decoded and written, and resolving [image2]
    then raises (not a string, bad base64, failing temp write), the answer is
    500 with that error, the handler issues no unlink, and the temp file of
    [image1] stays on the disk with the decoded bytes. *)
Theorem X5_failed_image2_leaves_image1_file (w : World)
    (fields : list (string * pyval)) (st st1 st1' st2 : State) (data : bytes)
    (p1 : string) (e : Exception) :
  tmp_fresh w ->
  truthy (dict_get fields "image1") = true ->
  truthy (dict_get fields "image2") = true ->
  decode_image w (dict_get fields "image1") st = (st1, inr data) ->
  write_temp w ".jpg" data st1 = (st1', inr p1) ->
  resolve_image2 w (dict_get fields "image2") st1' = (st2, inl e) ->
  verify_faces w (json_request fields) st = (st2, error_response e)
  /\ disk st2 !! p1 = Some data
  /\ exists evs, trace st2 = (trace st ++ evs)%list
                 /\ In (EvCreate p1) evs
                 /\ forall p, ~ In (EvUnlink p) evs.
Proof.
  intros Hfresh H1 H2 Hd Hw Hr.
  assert (Hp : prepare_images w (dict_get fields "image1")
                 (dict_get fields "image2") st = (st2, inl e)).
  { unfold prepare_images, bind. rewrite Hd, Hw, Hr. reflexivity. }
  split; [exact (valid_prepare_raises w fields st st2 e H1 H2 Hp)|].
  destruct (decode_image_effects w _ _ _ _ Hd) as (evs1 & Hs1 & _).
  destruct (write_temp_effects w _ _ _ _ _ Hw) as (evs2 & Hs2 & Hp1).
  destruct (resolve_image2_effects w _ _ _ _ Hr) as (evs3 & Hs3 & _).
  destruct (Hp1 p1 eq_refl) as (Hin & Hfile & _).
  split.
  - destruct Hs3 as (_ & _ & Hk). exact (Hk Hfresh _ _ Hfile).
  - exists (evs1 ++ evs2 ++ evs3)%list.
    destruct (prep_step_trans w _ _ _ _ _ Hs1
                (prep_step_trans w _ _ _ _ _ Hs2 Hs3)) as (Ht & Hf & _).
    split; [exact Ht|]. split.
    + apply in_or_app. right. apply in_or_app. left. exact Hin.
    + intros p. apply prep_events_no_unlink, Hf.
Qed.

Lemma X5_witness :
  verify_faces py_world
    (json_request [("image1", PStr "AAAA"); ("image2", PInt 7)]) st0
  = (mkState {[ "/tmp/tmp0.jpg" := [0; 0; 0]%Z ]}
             [EvDecode (PStr "AAAA"); EvCreate "/tmp/tmp0.jpg";
              EvWrite "/tmp/tmp0.jpg" [0; 0; 0]%Z],
     error_response (AttributeError (PInt 7) "startswith")).
Proof.
  pose (fields := [("image1", PStr "AAAA"); ("image2", PInt 7)]).
  refine (proj1 (X5_failed_image2_leaves_image1_file py_world fields st0
                   (mkState ∅ [EvDecode (PStr "AAAA")])
                   (mkState {[ "/tmp/tmp0.jpg" := [0; 0; 0]%Z ]}
                            [EvDecode (PStr "AAAA"); EvCreate "/tmp/tmp0.jpg";
                             EvWrite "/tmp/tmp0.jpg" [0; 0; 0]%Z])
                   _ [0; 0; 0]%Z "/tmp/tmp0.jpg" _
                   py_world_fresh _ _ _ _ _));
    vm_compute; reflexivity.
Defined.

Lemma dict_item_missing (d : list (string * pyval)) (key : string)
    (e : Exception) :
  dict_item d key = inl e -> e = KeyError key.
Proof.
  induction d as [|[k v] d IH]; cbn.
  - intros H. injection H as <-. reflexivity.
  - destruct (String.eqb k key); [discriminate|exact IH].
Qed.

(** X6: when the verifier's result lacks one of the four keys the handler
    reads, the answer is 500 with the [KeyError] of a missing key (its name
    in quotes) as the message, and the temp file of [image1] is removed all
    the same, the lookup failing inside the inner [try]. *)
Theorem X6_result_without_key_500 (w : World) (fields : list (string * pyval))
    (st st2 : State) (p1 p2 : string) (d' : gmap string bytes)
    (result : list (string * pyval)) :
  truthy (dict_get fields "image1") = true ->
  truthy (dict_get fields "image2") = true ->
  prepare_images w (dict_get fields "image1") (dict_get fields "image2") st
  = (st2, inr (p1, p2)) ->
  DeepFace_verify w (disk st2) p1 p2 "VGG-Face" false = (d', inr result) ->
  forallb (has_key result) result_keys = false ->
  (exists key,
      In key result_keys /\ has_key result key = false
      /\ snd (verify_faces w (json_request fields) st)
         = mkResponse 500 [("error", PStr ("'" ++ key ++ "'"));
                           ("verified", PBool false)])
  /\ disk (fst (verify_faces w (json_request fields) st)) !! p1 = None.
Proof.
  intros H1 H2 Hp Hv Hkeys. split.
  - rewrite (valid_prepared_run w fields st st2 p1 p2 H1 H2 Hp). cbn [snd].
    rewrite (call_verifier_returns w p1 p2 st2 d' result Hv). cbn [snd].
    unfold result_keys, has_key in *. cbn [forallb] in Hkeys.
    destruct (dict_item result "verified") as [e|v1] eqn:E1.
    { exists "verified". rewrite E1, (dict_item_missing _ _ _ E1).
      split; [cbn; auto|]. split; reflexivity. }
    destruct (dict_item result "distance") as [e|v2] eqn:E2.
    { exists "distance". rewrite E2, (dict_item_missing _ _ _ E2).
      split; [cbn; auto|]. split; reflexivity. }
    destruct (dict_item result "threshold") as [e|v3] eqn:E3.
    { exists "threshold". rewrite E3, (dict_item_missing _ _ _ E3).
      split; [cbn; auto|]. split; reflexivity. }
    destruct (dict_item result "model") as [e|v4] eqn:E4.
    { exists "model". rewrite E4, (dict_item_missing _ _ _ E4).
      split; [cbn; auto 6|]. split; reflexivity. }
    discriminate.
  - rewrite (valid_prepared_run w fields st st2 p1 p2 H1 H2 Hp).
    cbn [fst disk]. unfold cleanup_disk.
    destruct (py_ne p2 (dict_get fields "image2")); [|apply lookup_delete_eq].
    destruct (decide (p2 = p1)) as [->|Hne]; [apply lookup_delete_eq|].
    rewrite lookup_delete_ne by exact Hne. apply lookup_delete_eq.
Qed.

Lemma X6_witness :
  exists key,
    In key result_keys
    /\ has_key [("verified", PBool true); ("distance", PFloat 0);
                ("max_threshold_to_verify", PFloat 0.5);
                ("model", PStr "VGG-Face");
                ("similarity_metric", PStr "cosine")] key = false
    /\ snd (verify_faces old_verifier_world
              (json_request [("image1", PStr "AAAA");
                             ("image2", PStr "/9j/4AAQ")]) st0)
       = mkResponse 500 [("error", PStr ("'" ++ key ++ "'"));
                         ("verified", PBool false)].
Proof.
  pose (fields := [("image1", PStr "AAAA"); ("image2", PStr "/9j/4AAQ")]).
  pose (run := prepare_images old_verifier_world (dict_get fields "image1")
                              (dict_get fields "image2") st0).
  refine (proj1 (X6_result_without_key_500 old_verifier_world fields st0
                   (fst run) "/tmp/tmp0.jpg" "/tmp/tmp1.jpg" (disk (fst run))
                   _ _ _ _ _ _));
    vm_compute; reflexivity.
Defined.

Lemma before_first_comma_clean (s : string) :
  str_contains comma (before_first_comma s) = false.
Proof.
  induction s as [|a s IH]; [reflexivity|]. cbn [before_first_comma].
  destruct (Ascii.eqb a comma) eqn:E; [reflexivity|].
  cbn [str_contains]. rewrite E. exact IH.
Qed.

Lemma str_payload_header (h p : string) :
  str_contains comma h = false -> str_contains comma p = false ->
  str_payload (h ++ "," ++ p) = p.
Proof.
  intros Hh Hp. unfold str_payload.
  assert (E : str_contains comma (h ++ "," ++ p) = true
              /\ after_first_comma (h ++ "," ++ p) = p).
  { induction h as [|a h IH].
    - split; reflexivity.
    - change (String a h ++ "," ++ p) with (String a (h ++ "," ++ p)).
      cbn [str_contains after_first_comma] in *.
      destruct (Ascii.eqb a comma); [discriminate|]. exact (IH Hh). }
  destruct E as [-> ->]. apply before_first_comma_free, Hp.
Qed.

Lemma prepare_images_payload (w : World) (s1 s1' : string) (image2 : pyval)
    (st : State) :
  str_payload s1 = str_payload s1' ->
  prepare_images w (PStr s1) image2 st = prepare_images w (PStr s1') image2 st.
Proof.
  intros E. unfold prepare_images. unfold bind at 1 4.
  rewrite !decode_image_str, E. reflexivity.
Qed.

(** X7: a header in front of the payload is transparent to the whole
    request, not only to the decoded bytes: with a comma-free header [h]
    (such as [data:image/png;base64]) and a comma-free, non-empty payload
    [p], sending [image1 = h,p] and sending [image1 = p] give the same
    answer and leave the same disk and trace, for every [image2]. *)
Theorem X7_header_transparent_for_request (w : World) (h p : string)
    (rest : list (string * pyval)) (st : State) :
  str_contains comma h = false -> str_contains comma p = false -> p <> "" ->
  verify_faces w (json_request (("image1", PStr (h ++ "," ++ p)) :: rest)) st
  = verify_faces w (json_request (("image1", PStr p) :: rest)) st.
Proof.
  intros Hh Hp Hne.
  set (f1 := ("image1", PStr (h ++ "," ++ p)) :: rest).
  set (f2 := ("image1", PStr p) :: rest).
  assert (G1 : dict_get f1 "image1" = PStr (h ++ "," ++ p)) by reflexivity.
  assert (G2 : dict_get f2 "image1" = PStr p) by reflexivity.
  assert (G3 : dict_get f1 "image2" = dict_get rest "image2") by reflexivity.
  assert (G4 : dict_get f2 "image2" = dict_get rest "image2") by reflexivity.
  assert (T1 : truthy (dict_get f1 "image1") = true).
  { rewrite G1. cbn [truthy]. destruct h; reflexivity. }
  assert (T2 : truthy (dict_get f2 "image1") = true).
  { rewrite G2. cbn [truthy]. destruct p; [congruence|reflexivity]. }
  destruct (truthy (dict_get rest "image2")) eqn:T.
  - rewrite (verify_faces_valid w f1 st T1) by (rewrite G3; exact T).
    rewrite (verify_faces_valid w f2 st T2) by (rewrite G4; exact T).
    rewrite G1, G2, G3, G4.
    unfold try_except, bind.
    rewrite (prepare_images_payload w (h ++ "," ++ p) p).
    + reflexivity.
    + rewrite (str_payload_header h p Hh Hp). unfold str_payload.
      rewrite Hp. reflexivity.
  - rewrite (verify_faces_invalid w f1 st)
      by (rewrite G3, T; apply andb_false_r).
    rewrite (verify_faces_invalid w f2 st)
      by (rewrite G4, T; apply andb_false_r).
    reflexivity.
Qed.

Lemma X7_witness :
  verify_faces py_world
    (json_request [("image1", PStr ("data:image/png;base64" ++ "," ++ "/9j/4AAQ"));
                   ("image2", PStr "/9j/4AAQ")]) st0
  = verify_faces py_world
      (json_request [("image1", PStr "/9j/4AAQ"); ("image2", PStr "/9j/4AAQ")])
      st0.
Proof.
  apply (X7_header_transparent_for_request py_world "data:image/png;base64"
           "/9j/4AAQ" [("image2", PStr "/9j/4AAQ")] st0);
    [reflexivity | reflexivity | discriminate].
Defined.

(** X8: what the verifier is given.  With fresh temp names, when both
    images are resolved the file at [img1_path] holds exactly the bytes
    decoded from [image1]'s payload; on the base64 route the file at
    [img2_path] is a different file holding the bytes decoded from
    [image2]'s payload; on the path route [img2_path] is the string sent,
    and a file that was there is still there. *)
Theorem X8_verifier_is_given_the_decoded_images (w : World) (s1 s2 : string)
    (st st2 : State) (p1 p2 : string) :
  tmp_fresh w ->
  prepare_images w (PStr s1) (PStr s2) st = (st2, inr (p1, p2)) ->
  (exists data1,
      b64decode w (PStr (str_payload s1)) = inr data1
      /\ disk st2 !! p1 = Some data1)
  /\ (sniffs_base64 s2 = true ->
      p1 <> p2
      /\ exists data2,
           b64decode w (PStr (str_payload s2)) = inr data2
           /\ disk st2 !! p2 = Some data2)
  /\ (sniffs_base64 s2 = false ->
      p2 = s2 /\ forall c, disk st !! s2 = Some c -> disk st2 !! s2 = Some c).
Proof.
  intros Hfresh Hp.
  destruct (prepare_images_effects w _ _ _ _ _ Hp) as (evs & (_ & _ & Hk) & Hpaths).
  destruct (Hpaths p1 p2 eq_refl) as (_ & H1 & s & Hs & H2).
  injection Hs as <-.
  destruct (H1 Hfresh) as (_ & data1 & Hd1 & Hf1).
  rewrite decode_image_str in Hd1. cbn [snd] in Hd1.
  split; [exists data1; split; assumption|].
  destruct (sniffs_base64 s2).
  - split; [|discriminate]. intros _.
    destruct H2 as [_ H2]. destruct (H2 Hfresh) as (Hne & _ & data2 & Hd2 & Hf2).
    split; [exact Hne|]. exists data2. split; assumption.
  - split; [discriminate|]. intros _. subst p2.
    split; [reflexivity|]. intros c. apply (Hk Hfresh).
Qed.

Lemma X8_witness :
  exists data1,
    b64decode py_world (PStr (str_payload "data:image/jpeg;base64,/9j/4AAQ"))
    = inr data1
    /\ disk (fst (prepare_images py_world
                    (PStr "data:image/jpeg;base64,/9j/4AAQ")
                    (PStr "/9j/4AAQ") st0)) !! "/tmp/tmp0.jpg" = Some data1.
Proof.
  refine (proj1 (X8_verifier_is_given_the_decoded_images py_world
                   "data:image/jpeg;base64,/9j/4AAQ" "/9j/4AAQ" st0
                   (fst (prepare_images py_world
                           (PStr "data:image/jpeg;base64,/9j/4AAQ")
                           (PStr "/9j/4AAQ") st0))
                   "/tmp/tmp0.jpg" "/tmp/tmp1.jpg" py_world_fresh _)).
  vm_compute. reflexivity.
Defined.

Lemma dict_item_get (d : list (string * pyval)) (key : string) (v : pyval) :
  dict_item d key = inr v -> dict_get d key = v.
Proof.
  induction d as [|[k x] d IH]; cbn; [discriminate|].
  destruct (String.eqb k key); [congruence|exact IH].
Qed.

Lemma cleanup_events_no_verify (d : gmap string bytes) (p1 p2 : string)
    (image2 : pyval) :
  List.filter is_verify (cleanup_events d p1 p2 image2) = [].
Proof.
  unfold cleanup_events. destruct (bool_decide _), (_ && _); reflexivity.
Qed.

(** X9: a 200 is only ever built from a verifier result: the body parsed to
    a dict, both images were resolved, the verifier returned a dict holding
    the four keys, and the body lists exactly those four entries of it, in
    the order verified, distance, threshold, model. *)
Theorem X9_status_200_means_verifier_result (w : World) (request : Request)
    (st : State) :
  status (snd (verify_faces w request st)) = 200%Z ->
  exists fields st2 p1 p2 d' result,
    request = json_request fields
    /\ prepare_images w (dict_get fields "image1") (dict_get fields "image2") st
       = (st2, inr (p1, p2))
    /\ DeepFace_verify w (disk st2) p1 p2 "VGG-Face" false = (d', inr result)
    /\ forallb (has_key result) result_keys = true
    /\ body (snd (verify_faces w request st))
       = map (fun key => (key, dict_get result key)) result_keys.
Proof.
  intros H200.
  destruct (verify_faces_run w request st)
    as [[_ Hn] | [(fields & st2 & e & -> & H1 & H2 & Hp & Hrun)
                 | (fields & st2 & p1 & p2 & -> & H1 & H2 & Hp)]].
  - contradiction.
  - rewrite Hrun in H200. discriminate.
  - rewrite (valid_prepared_run w fields st st2 p1 p2 H1 H2 Hp) in *.
    cbn [snd] in *.
    destruct (DeepFace_verify w (disk st2) p1 p2 "VGG-Face" false)
      as [d' [e|result]] eqn:Hv.
    { rewrite (call_verifier_raises w p1 p2 st2 d' e Hv) in H200.
      discriminate. }
    rewrite (call_verifier_returns w p1 p2 st2 d' result Hv) in *.
    cbn [snd] in *.
    exists fields, st2, p1, p2, d', result.
    split; [reflexivity|]. split; [exact Hp|]. split; [exact Hv|].
    unfold result_keys, has_key. cbn [forallb map].
    destruct (dict_item result "verified") as [e|v1] eqn:E1; [discriminate|].
    destruct (dict_item result "distance") as [e|v2] eqn:E2; [discriminate|].
    destruct (dict_item result "threshold") as [e|v3] eqn:E3; [discriminate|].
    destruct (dict_item result "model") as [e|v4] eqn:E4; [discriminate|].
    split; [reflexivity|]. cbn [body].
    rewrite (dict_item_get _ _ _ E1), (dict_item_get _ _ _ E2),
      (dict_item_get _ _ _ E3), (dict_item_get _ _ _ E4). reflexivity.
Qed.

Lemma X9_witness :
  exists fields st2 p1 p2 d' result,
    json_request [("image1", PStr "AAAA"); ("image2", PStr "data:,AAAA")]
    = json_request fields
    /\ prepare_images py_world (dict_get fields "image1")
                      (dict_get fields "image2") st0
       = (st2, inr (p1, p2))
    /\ DeepFace_verify py_world (disk st2) p1 p2 "VGG-Face" false
       = (d', inr result)
    /\ forallb (has_key result) result_keys = true
    /\ body (snd (verify_faces py_world
                    (json_request [("image1", PStr "AAAA");
                                   ("image2", PStr "data:,AAAA")]) st0))
       = map (fun key => (key, dict_get result key)) result_keys.
Proof.
  apply (X9_status_200_means_verifier_result py_world
           (json_request [("image1", PStr "AAAA");
                          ("image2", PStr "data:,AAAA")]) st0).
  vm_compute. reflexivity.
Defined.

(** X10: the verifier is called at most once per request, always with
    ["VGG-Face"] and detection not enforced; when it is not called the
    answer is not 200. *)
Theorem X10_verifier_called_at_most_once (w : World) (request : Request)
    (st : State) :
  exists evs,
    trace (fst (verify_faces w request st)) = (trace st ++ evs)%list
    /\ ((List.filter is_verify evs = []
         /\ status (snd (verify_faces w request st)) <> 200%Z)
        \/ exists p1 p2,
             List.filter is_verify evs = [EvVerify p1 p2 "VGG-Face" false]).
Proof.
  destruct (verify_faces_run w request st)
    as [[Hst Hn] | [(fields & st2 & e & -> & H1 & H2 & Hp & Hrun)
                   | (fields & st2 & p1 & p2 & -> & H1 & H2 & Hp)]].
  - exists []. rewrite Hst, app_nil_r. split; [reflexivity|].
    left. split; [reflexivity|exact Hn].
  - rewrite Hrun. cbn [fst snd].
    destruct (prepare_images_effects w _ _ _ _ _ Hp) as (evs & (Ht & Hf & _) & _).
    exists evs. split; [exact Ht|]. left.
    split; [apply prep_events_no_verify, Hf|discriminate].
  - rewrite (valid_prepared_run w fields st st2 p1 p2 H1 H2 Hp). cbn [fst trace].
    destruct (prepare_images_effects w _ _ _ _ _ Hp) as (evs & (Ht & Hf & _) & _).
    eexists. split; [rewrite Ht, <- app_assoc; reflexivity|].
    right. exists p1, p2.
    rewrite !List.filter_app, (prep_events_no_verify evs Hf),
      cleanup_events_no_verify. reflexivity.
Qed.

(** X11: a number or [true] sent as [image1] passes field validation (it is
    truthy) and is answered 500, the test [',' in image1] raising a
    [TypeError]; nothing is decoded and no file is created. *)
Theorem X11_scalar_image1_500 (w : World) (fields : list (string * pyval))
    (st : State) :
  is_scalar (dict_get fields "image1") = true ->
  truthy (dict_get fields "image1") = true ->
  truthy (dict_get fields "image2") = true ->
  fst (verify_faces w (json_request fields) st) = st
  /\ status (snd (verify_faces w (json_request fields) st)) = 500%Z
  /\ exists msg,
       body (snd (verify_faces w (json_request fields) st))
       = [("error", PStr msg); ("verified", PBool false)].
Proof.
  intros Hs H1 H2.
  assert (Hp : exists e,
             prepare_images w (dict_get fields "image1")
                            (dict_get fields "image2") st = (st, inl e)).
  { unfold prepare_images, bind, decode_image, bind, lift.
    destruct (dict_get fields "image1"); try discriminate;
      eexists; reflexivity. }
  destruct Hp as [e Hp].
  rewrite (valid_prepare_raises w fields st st e H1 H2 Hp).
  split; [reflexivity|]. split; [reflexivity|]. eexists. reflexivity.
Qed.

Lemma X11_witness :
  fst (verify_faces py_world
         (json_request [("image1", PInt 42); ("image2", PStr "/9j/4AAQ")])
         st_gov) = st_gov.
Proof.
  apply (X11_scalar_image1_500 py_world
           [("image1", PInt 42); ("image2", PStr "/9j/4AAQ")] st_gov);
    reflexivity.
Defined.

(** X12: for every string the expression of lines 21 and 29 yields a text
    (it never raises, [split(',')[1]] being evaluated only when there is a
    comma), and that text holds no comma. *)
Theorem X12_payload_has_no_comma (s : string) :
  exists t, b64_payload (PStr s) = inr (PStr t) /\ str_contains comma t = false.
Proof.
  exists (str_payload s). split; [apply b64_payload_str|].
  unfold str_payload. destruct (str_contains comma s) eqn:E.
  - apply before_first_comma_clean.
  - exact E.
Qed.
